(** * autodiff: dual numbers, derivative extraction and the Newton solver

    A shallow embedding of [autodiff/core.py] (the functions [val] and [d],
    the class [Num] and its subclass [Var]) and of [autodiff/tools.py] (the
    class [Result], the counter wrapper [prepare] and the solver [newton]).

    Python is dynamically typed; the embedding fixes this universe of
    objects:
    - a _scalar_ is an instance of [float], [int] or [np.ndarray], the three
      classes [val] accepts next to [Num].  The arithmetic of scalars is
      Python's, not the repository's: it is an interface ([PyNumber]) whose
      operations may raise, with one instance below, the built-in [int] and
      [float] (binary64), in which the power of floats, computed by the C
      library, is a parameter;
    - a [Num] holds two scalars (nested dual numbers are left out);
    - every other object that is not callable is a [VOther];
    - a callable takes an object and returns an object or raises. *)

From Stdlib Require Import ZArith Floats Lia Bool.
From stdpp Require Import base option gmap strings sorting.
From Equations Require Import Equations.

Local Open Scope Z_scope.

(** ** Exceptions and results *)

(** The exception classes that the embedded code or the built-in numbers can
    raise.  [ValueError] is what [val] raises, with the message
    ["Cannot convert %s to value!"]; [Exception cls] stands for any other
    class, such as one raised by a user function. *)
Inductive exn : Type :=
| ValueError
| TypeError
| AttributeError
| KeyError
| ZeroDivisionError
| OverflowError
| UnboundLocalError
| RecursionError
| Exception (cls : string).

(** The outcome of evaluating an expression: a value, or a raised
    exception that unwinds to the caller. *)
Inductive res (A : Type) : Type :=
| Ok (a : A)
| Raise (e : exn).
Arguments Ok {A} a.
Arguments Raise {A} e.

#[global] Instance res_ret : MRet res := fun _ a => Ok a.
#[global] Instance res_bind : MBind res := fun _ _ k m =>
  match m with
  | Ok a => k a
  | Raise e => Raise e
  end.
#[global] Instance res_fmap : FMap res := fun _ _ g m =>
  match m with
  | Ok a => Ok (g a)
  | Raise e => Raise e
  end.

Definition returns {A} (m : res A) : Prop := ∃ a, m = Ok a.

(** ** The numbers of the platform *)

(** Python's operators on scalars.  [num_eq x y] and [num_lt x y] are the
    truth values of [x == y] and [x < y] as an [if] tests them (for an
    array with several elements that test raises). *)
Class PyNumber (scalar : Type) : Type := {
  py_int : Z → scalar;
  py_float : float → scalar;
  num_add : scalar → scalar → res scalar;
  num_sub : scalar → scalar → res scalar;
  num_mul : scalar → scalar → res scalar;
  num_truediv : scalar → scalar → res scalar;
  num_pow : scalar → scalar → res scalar;
  num_neg : scalar → res scalar;
  num_abs : scalar → res scalar;
  num_eq : scalar → scalar → res bool;
  num_lt : scalar → scalar → res bool
}.

(** ** core.py *)

Section Core.
Context {scalar : Type} {PN : PyNumber scalar}.

(** Objects that are not callable. *)
Inductive value : Type :=
| VScalar (s : scalar)
| VNum (x dx : scalar)
| VOther (str : string).

(** A callable, and the argument of [val] and [d]: an object of either
    kind. *)
Definition callable : Type := value → res value.

Inductive pyarg : Type :=
| Obj (v : value)
| Fn (f : callable).

(** What [d] returns: a scalar, or the closure [fprime]. *)
Inductive dres : Type :=
| DScalar (s : scalar)
| DFn (g : scalar → res scalar).

(** [Var(x)] is [Num(x, 1.0)]. *)
Definition Var (x : scalar) : value := VNum x (py_float 1).

(** [val(var)] *)
Definition val (var : pyarg) : res scalar :=
  match var with
  | Obj (VNum x _) => Ok x
  | Obj (VScalar s) => Ok s
  | Obj (VOther _) | Fn _ => Raise ValueError
  end.

(** [.dx] on the object a callable returned: only a [Num] has the
    attribute. *)
Definition getattr_dx (v : value) : res scalar :=
  match v with
  | VNum _ dx => Ok dx
  | VScalar _ | VOther _ => Raise AttributeError
  end.

(** The closure [fprime] that [d] builds around the callable [var]. *)
Definition fprime (var : callable) (x : scalar) : res scalar :=
  var (VNum x (py_float 1)) ≫= getattr_dx.

(** The dispatch of [d] on the kind of [var], below the test on [n]. *)
Definition d_dispatch (var : pyarg) : dres :=
  match var with
  | Obj (VNum _ dx) => DScalar dx
  | Fn f => DFn (fprime f)
  | Obj (VScalar _) | Obj (VOther _) => DScalar (py_float 0)
  end.

(** [d(var, n)]: the recursion on [n] keeps [var].  This is what the call
    returns when the interpreter's stack suffices; [d_frames] below counts
    the frames. *)
Equations? d (var : pyarg) (n : Z) : dres by wf (Z.to_nat n) lt :=
  d var n with Z_lt_dec 1 n => {
    | left _ := d var (n - 1);
    | right _ := d_dispatch var }.
Proof. lia. Qed.

(** [d(var, n)] under the recursion limit of the interpreter.  Every
    activation of [d] takes a frame, and the activation for [n > 1] calls
    [d] again before it returns.  [frames] is the number of nested
    activations of [d] that can still be opened where the call is made:
    the recursion limit, less the frames in use and those that the
    [isinstance] tests of the last activation need.  A call that finds no
    frame raises [RecursionError], which nothing catches. *)
Fixpoint d_frames (frames : nat) (var : pyarg) (n : Z) : res dres :=
  match frames with
  | O => Raise RecursionError
  | S frames =>
      if Z_lt_dec 1 n then d_frames frames var (n - 1)
      else Ok (d_dispatch var)
  end.

(** *** class Num *)

(** A derivative part that enters arithmetic must be a number: the closure
    that [d] returns for a callable is not one. *)
Definition as_scalar (r : dres) : res scalar :=
  match r with
  | DScalar s => Ok s
  | DFn _ => Raise TypeError
  end.

(** The first line of every binary method:
    [x, y, dx, dy = val(self), val(other), d(self), d(other)]. *)
Definition operands (self other : value)
  : res (scalar * scalar * scalar * scalar) :=
  x ← val (Obj self);
  y ← val (Obj other);
  dx ← as_scalar (d (Obj self) 1);
  dy ← as_scalar (d (Obj other) 1);
  Ok (x, y, dx, dy).

(** [Num.__float__] *)
Definition Num_float (self : value) : res scalar :=
  match self with
  | VNum x _ => Ok x
  | VScalar _ | VOther _ => Raise AttributeError
  end.

(** [Num.__add__], and [__radd__ = __add__] *)
Definition Num_add (self other : value) : res value :=
  '(x, y, dx, dy) ← operands self other;
  x' ← num_add x y;
  dx' ← num_add dx dy;
  Ok (VNum x' dx').

Definition Num_radd : value → value → res value := Num_add.

(** [Num.__sub__] *)
Definition Num_sub (self other : value) : res value :=
  '(x, y, dx, dy) ← operands self other;
  x' ← num_sub x y;
  dx' ← num_sub dx dy;
  Ok (VNum x' dx').

(** [Num.__mul__], and [__rmul__ = __mul__] *)
Definition Num_mul (self other : value) : res value :=
  '(x, y, dx, dy) ← operands self other;
  x' ← num_mul x y;
  a ← num_mul dx y;
  b ← num_mul x dy;
  dx' ← num_add a b;
  Ok (VNum x' dx').

Definition Num_rmul : value → value → res value := Num_mul.

(** [Num.__neg__]: [-1*self]; [int.__mul__] does not know [Num], so the
    product is [self.__rmul__(-1)]. *)
Definition Num_neg (self : value) : res value :=
  Num_rmul self (VScalar (py_int (-1))).

(** [Num.__rsub__]: [-self + other], an addition whose left operand is the
    [Num] that [__neg__] returned. *)
Definition Num_rsub (self other : value) : res value :=
  neg ← Num_neg self;
  Num_add neg other.

(** [Num.__truediv__] *)
Definition Num_truediv (self other : value) : res value :=
  '(x, y, dx, dy) ← operands self other;
  zero ← num_eq y (py_float 0);
  if (zero : bool) then Ok (VNum (py_float infinity) (py_float infinity))
  else
    x' ← num_truediv x y;
    a ← num_mul dx y;
    b ← num_mul x dy;
    c ← num_sub a b;
    y2 ← num_pow y (py_int 2);
    dx' ← num_truediv c y2;
    Ok (VNum x' dx').

(** [Num.__rtruediv__] *)
Definition Num_rtruediv (self other : value) : res value :=
  Num_truediv other self.

(** [Num.__pow__] *)
Definition Num_pow (self other : value) : res value :=
  '(x, y, dx, dy) ← operands self other;
  x' ← num_pow x y;
  y1 ← num_sub y (py_int 1);
  p ← num_pow x y1;
  dx' ← num_mul y p;
  Ok (VNum x' dx').

(** *** The operators, as Python dispatches them

    [a + b] calls the method of the left operand; an [int], a [float] or
    another object on the left does not know [Num] (its method returns
    [NotImplemented]) and the reflected method of the right operand is
    called.  This is the dispatch for [int] and [float] on the left: an
    [np.ndarray] on the left applies its own operator to the [Num],
    element by element, and the statements below about a scalar on the
    left of a [Num] are made for [int] and [float].  [Num] has no
    [__rpow__], [__abs__] or comparison.  Between two objects that are not
    [Num], only the arithmetic of scalars is modelled. *)
Definition py_add (a b : value) : res value :=
  match a, b with
  | VNum _ _, _ => Num_add a b
  | VScalar x, VScalar y => VScalar <$> num_add x y
  | _, VNum _ _ => Num_radd b a
  | _, _ => Raise TypeError
  end.

Definition py_sub (a b : value) : res value :=
  match a, b with
  | VNum _ _, _ => Num_sub a b
  | VScalar x, VScalar y => VScalar <$> num_sub x y
  | _, VNum _ _ => Num_rsub b a
  | _, _ => Raise TypeError
  end.

Definition py_mul (a b : value) : res value :=
  match a, b with
  | VNum _ _, _ => Num_mul a b
  | VScalar x, VScalar y => VScalar <$> num_mul x y
  | _, VNum _ _ => Num_rmul b a
  | _, _ => Raise TypeError
  end.

Definition py_truediv (a b : value) : res value :=
  match a, b with
  | VNum _ _, _ => Num_truediv a b
  | VScalar x, VScalar y => VScalar <$> num_truediv x y
  | _, VNum _ _ => Num_rtruediv b a
  | _, _ => Raise TypeError
  end.

Definition py_pow (a b : value) : res value :=
  match a, b with
  | VNum _ _, _ => Num_pow a b
  | VScalar x, VScalar y => VScalar <$> num_pow x y
  | _, _ => Raise TypeError
  end.

Definition py_neg (a : value) : res value :=
  match a with
  | VNum _ _ => Num_neg a
  | VScalar x => VScalar <$> num_neg x
  | VOther _ => Raise TypeError
  end.

End Core.

Arguments value : clear implicits.
Arguments pyarg : clear implicits.
Arguments dres : clear implicits.
Arguments callable : clear implicits.

(** ** tools.py *)

Section Tools.
Context {scalar : Type} {PN : PyNumber scalar}.

(** *** class Result(dict) *)

(** The objects stored in a [Result]: strings, booleans, integers and the
    objects of [core.py].  [bool] is kept apart from [int]: the truth
    protocol accepts nothing else from [__bool__]. *)
Inductive field : Type :=
| FStr (s : string)
| FBool (b : bool)
| FInt (n : Z)
| FObj (v : value scalar).

(** A [Result] is a [dict] with string keys (keyword arguments). *)
Definition Result : Type := gmap string field.

(** [Result.__getattr__]: [self[key]] *)
Definition Result_getattr (self : Result) (key : string) : res field :=
  match self !! key with
  | Some v => Ok v
  | None => Raise KeyError
  end.

(** [Result.__bool__] *)
Definition Result_bool (self : Result) : field :=
  if decide ("success" ∈ dom self)
  then default (FBool false) (self !! "success")
  else FBool false.

(** The truth value of a [Result], as [if res:] or [not res] computes it:
    the interpreter calls [__bool__] and raises [TypeError] when the
    answer is not a [bool]. *)
Definition truth (self : Result) : res bool :=
  match Result_bool self with
  | FBool b => Ok b
  | FStr _ | FInt _ | FObj _ => Raise TypeError
  end.

(** *** prepare *)

(** [prepare(fun)] returns [wrapped], a closure over the cell [nfev]; the
    cell is passed in and out.  The cell is incremented before [fun] is
    called, so it counts the calls that raise too. *)
Definition wrapped (fun_ : callable scalar) (cell : Z) (x : value scalar)
  : Z * res (Z * value scalar) :=
  let cell := cell + 1 in
  (cell, r ← fun_ x; Ok (cell, r)).

(** *** newton *)

(** Calling [_fprime = d(fun)]: what [d] returned for something that is not
    callable is a float, and calling it raises. *)
Definition call_fprime (_fprime : dres scalar) (x : scalar) : res scalar :=
  match _fprime with
  | DFn g => g x
  | DScalar _ => Raise TypeError
  end.

(** How one pass through the body of the [while] loop ends. *)
Inductive pass : Type :=
| Break (nfev : Z)
| Next (nfev : Z) (x0 : scalar).

(** The body of the loop, from [nfev, f_x0 = _fun(x0)] to the update of
    [x0].  [abs] raises [TypeError] for a [Num] and for an object that is
    not a number, so below it [f_x0] is a scalar.  For [int] and [float],
    [x0 += q] binds [x0] to [x0 + q]. *)
Definition body (fun_ : callable scalar) (_fprime : dres scalar)
    (atol : scalar) (cell : Z) (x0 : scalar) : Z * res pass :=
  let '(cell, r) := wrapped fun_ cell (VScalar x0) in
  (cell,
   '(nfev, f_x0) ← r;
   match f_x0 with
   | VScalar f_x0 =>
       a ← num_abs f_x0;
       conv ← num_lt a atol;
       if (conv : bool) then Ok (Break nfev)
       else
         n ← num_neg f_x0;
         fp ← call_fprime _fprime x0;
         q ← num_truediv n fp;
         x0 ← num_add x0 q;
         Ok (Next nfev x0)
   | VNum _ _ | VOther _ => Raise TypeError
   end).

(** The local variables of [newton] that the [return] statement reads.
    [nfev] and [msg] are not bound before the loop. *)
Record locals : Type := Locals {
  l_msg : option string;
  l_success : bool;
  l_count : Z;
  l_nfev : option Z;
  l_x0 : scalar
}.

(** [while count < maxiter: ... else: ...] *)
Equations? loop (fun_ : callable scalar) (_fprime : dres scalar)
    (atol : scalar) (maxiter : Z) (cell : Z) (l : locals)
  : res locals by wf (Z.to_nat (maxiter - l_count l)) lt :=
  loop fun_ _fprime atol maxiter cell l with Z_lt_dec (l_count l) maxiter => {
    | right _ :=
        Ok (Locals (Some "max iterations reached.") (l_success l)
                   (l_count l) (l_nfev l) (l_x0 l));
    | left _ with body fun_ _fprime atol cell (l_x0 l) => {
        | (_, Raise e) := Raise e;
        | (_, Ok (Break nfev)) :=
            Ok (Locals (Some "converged.") true (l_count l) (Some nfev)
                       (l_x0 l));
        | (cell', Ok (Next nfev x0)) :=
            loop fun_ _fprime atol maxiter cell'
                 (Locals (l_msg l) (l_success l) (l_count l + 1) (Some nfev)
                         x0) } }.
Proof. simpl. lia. Qed.

(** Reading a local variable that may be unbound. *)
Definition load {A} (v : option A) : res A :=
  match v with
  | Some a => Ok a
  | None => Raise UnboundLocalError
  end.

(** [Result(message=.., success=.., nit=.., nfev=.., x=..)] *)
Definition make_Result (message : string) (success : bool) (nit nfev : Z)
    (x : scalar) : Result :=
  <["message" := FStr message]>
    (<["success" := FBool success]>
      (<["nit" := FInt nit]>
        (<["nfev" := FInt nfev]>
          (<["x" := FObj (VScalar x)]> ∅)))).

(** [newton(fun, x0, atol, maxiter)] *)
Definition newton (fun_ : callable scalar) (x0 : scalar) (atol : scalar)
    (maxiter : Z) : res Result :=
  let _fprime := d (Fn fun_) 1 in
  l ← loop fun_ _fprime atol maxiter 0 (Locals None false 0 None x0);
  msg ← load (l_msg l);
  nfev ← load (l_nfev l);
  Ok (make_Result msg (l_success l) (l_count l) (2 * nfev) (l_x0 l)).

End Tools.

Arguments field : clear implicits.
Arguments Result : clear implicits.
Arguments locals : clear implicits.
Arguments pass : clear implicits.

(** ** The built-in numbers: int and float *)

Module PyIntFloat.

(** [int] is unbounded; [float] is IEEE 754 binary64, the kernel's
    primitive floats.  [bool], a subclass of [int], is its integer. *)
Inductive scalar : Type :=
| SInt (n : Z)
| SFloat (f : float).

(** A binary64 from its specification, unless it rounded to an infinity:
    [OverflowError]. *)
Definition finite_or_overflow (sf : spec_float) : res float :=
  match sf with
  | S754_infinity _ => Raise OverflowError
  | S754_zero _ | S754_nan | S754_finite _ _ _ => Ok (SF2Prim sf)
  end.

(** [float(n)] for an [int]: the nearest float, ties to even;
    "int too large to convert to float" otherwise. *)
Definition float_of_int (n : Z) : res float :=
  finite_or_overflow (binary_normalize prec emax n 0 false).

Definition as_float (s : scalar) : res float :=
  match s with
  | SInt n => float_of_int n
  | SFloat f => Ok f
  end.

(** An operator of [float] on operands of which one at least is a float:
    both are converted, then the operation of the machine applies. *)
Definition float_op (op : float → float → float) (x y : scalar)
  : res scalar :=
  a ← as_float x;
  b ← as_float y;
  Ok (SFloat (op a b)).

Definition add (x y : scalar) : res scalar :=
  match x, y with
  | SInt a, SInt b => Ok (SInt (a + b))
  | _, _ => float_op PrimFloat.add x y
  end.

Definition sub (x y : scalar) : res scalar :=
  match x, y with
  | SInt a, SInt b => Ok (SInt (a - b))
  | _, _ => float_op PrimFloat.sub x y
  end.

Definition mul (x y : scalar) : res scalar :=
  match x, y with
  | SInt a, SInt b => Ok (SInt (a * b))
  | _, _ => float_op PrimFloat.mul x y
  end.

(** [a / b] for two [int]: the quotient rounded once to the nearest float.
    A zero dividend takes the sign of the quotient. *)
Definition int_truediv (a b : Z) : res float :=
  if b =? 0 then Raise ZeroDivisionError
  else if a =? 0 then Ok (if b <? 0 then neg_zero else zero)
  else
    let '(q, e, l) := SFdiv_core_binary prec emax (Z.abs a) 0 (Z.abs b) 0 in
    finite_or_overflow
      (binary_round_aux prec emax (xorb (a <? 0) (b <? 0)) q e l).

Definition truediv (x y : scalar) : res scalar :=
  match x, y with
  | SInt a, SInt b => SFloat <$> int_truediv a b
  | _, _ =>
      a ← as_float x;
      b ← as_float y;
      if (b =? 0)%float then Raise ZeroDivisionError
      else Ok (SFloat (a / b))
  end.

Definition neg (x : scalar) : res scalar :=
  match x with
  | SInt a => Ok (SInt (- a))
  | SFloat a => Ok (SFloat (- a))
  end.

Definition abs (x : scalar) : res scalar :=
  match x with
  | SInt a => Ok (SInt (Z.abs a))
  | SFloat a => Ok (SFloat (PrimFloat.abs a))
  end.

(** An [int] against a [float]: Python compares the exact values, without
    converting the integer.  [None] when the float is a NaN. *)
Definition compare_int_float (n : Z) (f : float) : option comparison :=
  match Prim2SF f with
  | S754_nan => None
  | S754_infinity s => Some (if s then Gt else Lt)
  | S754_zero _ => Some (n ?= 0)
  | S754_finite s m e =>
      let v := cond_Zopp s (Zpos m) in
      Some (if 0 <=? e then n ?= v * 2 ^ e else n * 2 ^ (- e) ?= v)
  end.

Definition eq (x y : scalar) : res bool :=
  Ok match x, y with
     | SInt a, SInt b => a =? b
     | SFloat a, SFloat b => (a =? b)%float
     | SInt a, SFloat b | SFloat b, SInt a =>
         bool_decide (compare_int_float a b = Some Eq)
     end.

Definition lt (x y : scalar) : res bool :=
  Ok match x, y with
     | SInt a, SInt b => a <? b
     | SFloat a, SFloat b => (a <? b)%float
     | SInt a, SFloat b => bool_decide (compare_int_float a b = Some Lt)
     | SFloat a, SInt b => bool_decide (compare_int_float b a = Some Gt)
     end.

Section Pow.
(** [float.__pow__] ends in the [pow] of the C library, which the primitive
    floats do not have: it is a parameter of the instance. *)
Variable float_pow : float → float → res scalar.

(** [x ** y]: exact for an [int] to a non-negative [int]; every other case
    is the power of floats. *)
Definition pow (x y : scalar) : res scalar :=
  match x, y with
  | SInt a, SInt b =>
      if 0 <=? b then Ok (SInt (a ^ b))
      else a ← float_of_int a; b ← float_of_int b; float_pow a b
  | _, _ => a ← as_float x; b ← as_float y; float_pow a b
  end.

Definition number : PyNumber scalar := {|
  py_int := SInt;
  py_float := SFloat;
  num_add := add;
  num_sub := sub;
  num_mul := mul;
  num_truediv := truediv;
  num_pow := pow;
  num_neg := neg;
  num_abs := abs;
  num_eq := eq;
  num_lt := lt
|}.
End Pow.

(** The instance of the closed examples below, none of which takes a power
    with a float operand: [float.__pow__] is left out of it and raises. *)
Definition no_float_pow : float → float → res scalar :=
  fun _ _ => Raise (Exception "float.__pow__").

Definition python : PyNumber scalar := number no_float_pow.

End PyIntFloat.

(** ** Example callables *)

Section Examples.
Context {scalar : Type} {PN : PyNumber scalar}.

(** [lambda x: 3 + x - x**3], the function of the docstrings. *)
Definition f_doc : callable scalar := fun x =>
  a ← py_add (VScalar (py_int 3)) x;
  b ← py_pow x (VScalar (py_int 3));
  py_sub a b.

(** [lambda x: x*x - 1]: its derivative vanishes at 0. *)
Definition f_square : callable scalar := fun x =>
  a ← py_mul x x;
  py_sub a (VScalar (py_int 1)).

(** [lambda x: x - 1] *)
Definition f_linear : callable scalar := fun x =>
  py_sub x (VScalar (py_int 1)).

End Examples.

(** ** Notions used in the statements *)

(** Commutative [+] and [*] on scalars, as [int], [float] and arrays have
    them. *)
Class PyNumberComm {scalar : Type} (PN : PyNumber scalar) : Prop := {
  num_add_comm : ∀ x y : scalar, num_add x y = num_add y x;
  num_mul_comm : ∀ x y : scalar, num_mul x y = num_mul y x
}.

(** Two evaluations agree when they return the same value or both raise:
    which exception is raised depends on the order of the operations. *)
Definition agree {A} (m1 m2 : res A) : Prop :=
  match m1, m2 with
  | Ok a, Ok b => a = b
  | Raise _, Raise _ => True
  | _, _ => False
  end.


(** The power rule as the specification words it, with the factor [dx]:
    [(x ** y, y * x ** (y - 1) * dx)]. *)
Definition spec_pow {scalar : Type} {PN : PyNumber scalar}
    (x dx y : scalar) : res (value scalar) :=
  x' ← num_pow x y;
  y1 ← num_sub y (py_int 1);
  p ← num_pow x y1;
  a ← num_mul y p;
  dx' ← num_mul a dx;
  Ok (VNum x' dx').

(** What holds of the local variables each time the loop tests
    [count < maxiter], when [newton] started it: the cell of [wrapped] and
    [count] advance together, and [nfev] is bound once a pass was made. *)
Definition at_test {scalar : Type} (cell : Z) (l : locals scalar) : Prop :=
  cell = l_count l ∧ 0 ≤ l_count l ∧ l_success l = false ∧
  l_nfev l = (if l_count l =? 0 then None else Some (l_count l)).

(** The two ways the loop ends normally. *)
Definition converged {scalar : Type} (maxiter : Z) (l l' : locals scalar)
  : Prop :=
  l_success l' = true ∧ l_msg l' = Some "converged."%string ∧
  l_count l ≤ l_count l' < maxiter ∧ l_nfev l' = Some (l_count l' + 1).

Definition exhausted {scalar : Type} (maxiter : Z) (l l' : locals scalar)
  : Prop :=
  l_success l' = false ∧ l_msg l' = Some "max iterations reached."%string ∧
  l_count l' = Z.max (l_count l) maxiter ∧
  l_nfev l' = (if l_count l' =? 0 then None else Some (l_count l')).

(** ** More of tools.py, and programs over the operators *)

Section MoreTools.
Context {scalar : Type}.

(** [Result.__repr__]: the lines ["key: value"], sorted as strings and
    joined by newlines.  [str] is Python's [str] on the stored objects (the
    keys are strings already).  The order in which the dictionary yields
    its items does not matter under [sorted]. *)
Definition Result_repr (str : field scalar → string) (self : Result scalar)
  : string :=
  String.concat (String (Ascii.ascii_of_nat 10) "")
    (merge_sort String.le
       ((λ kv : string * field scalar, kv.1 +:+ ": " +:+ str kv.2) <$>
          map_to_list self)).

(** A sequence of calls of the closure [wrapped] that [prepare] returned,
    on the arguments [xs], from the cell [cell] on: the cell after the
    calls and what each call returned or raised. *)
Fixpoint calls (fun_ : callable scalar) (cell : Z) (xs : list (value scalar))
  : Z * list (res (Z * value scalar)) :=
  match xs with
  | [] => (cell, [])
  | x :: xs =>
      let '(cell, r) := wrapped fun_ cell x in
      let '(cell, rs) := calls fun_ cell xs in
      (cell, r :: rs)
  end.

End MoreTools.

(** Expressions in one variable over [+], [-] and [*], whose constants are
    dual numbers [Num(c, 0)]; their value and their derivative at an
    integer; and the program that evaluates them with Python's operators. *)
Inductive poly : Type :=
| PVar
| PConst (c : Z)
| PAdd (p q : poly)
| PSub (p q : poly)
| PMul (p q : poly).

Fixpoint poly_eval (p : poly) (x : Z) : Z :=
  match p with
  | PVar => x
  | PConst c => c
  | PAdd p q => poly_eval p x + poly_eval q x
  | PSub p q => poly_eval p x - poly_eval q x
  | PMul p q => poly_eval p x * poly_eval q x
  end.

Fixpoint poly_deriv (p : poly) (x : Z) : Z :=
  match p with
  | PVar => 1
  | PConst _ => 0
  | PAdd p q => poly_deriv p x + poly_deriv q x
  | PSub p q => poly_deriv p x - poly_deriv q x
  | PMul p q => poly_deriv p x * poly_eval q x + poly_eval p x * poly_deriv q x
  end.

Fixpoint poly_run {scalar : Type} {PN : PyNumber scalar} (p : poly)
    (v : value scalar) : res (value scalar) :=
  match p with
  | PVar => Ok v
  | PConst c => Ok (VNum (py_int c) (py_int 0))
  | PAdd p q => a ← poly_run p v; b ← poly_run q v; py_add a b
  | PSub p q => a ← poly_run p v; b ← poly_run q v; py_sub a b
  | PMul p q => a ← poly_run p v; b ← poly_run q v; py_mul a b
  end.

(** A tolerance [atol'] is looser than [atol] when every comparison
    [a < atol] that holds also holds with [atol'], and a comparison that
    returns with [atol] returns with [atol']. *)
Definition looser {scalar : Type} {PN : PyNumber scalar}
    (atol atol' : scalar) : Prop :=
  ∀ a : scalar,
    match num_lt a atol with
    | Ok true => num_lt a atol' = Ok true
    | Ok false => returns (num_lt a atol')
    | Raise _ => True
    end.

(** ** Facts about core.py *)

Section CoreFacts.
Context {scalar : Type} {PN : PyNumber scalar}.
Implicit Types (var : pyarg scalar) (x y dx dy s : scalar) (n : Z).

Lemma d_step var n :
  d var n = if Z_lt_dec 1 n then d var (n - 1) else d_dispatch var.
Proof.
  rewrite d_equation_1 at 1. unfold d_unfold_clause_1.
  destruct (Z_lt_dec 1 n); reflexivity.
Qed.

(** Whatever [n] is, [d] ends in the dispatch on [var]. *)
Lemma d_any var n : d var n = d_dispatch var.
Proof.
  funelim (d var n); [assumption | reflexivity].
Qed.

Lemma operands_eq (self other : value scalar) :
  operands self other =
    (x ← val (Obj self); y ← val (Obj other);
     dx ← as_scalar (d_dispatch (Obj self));
     dy ← as_scalar (d_dispatch (Obj other));
     Ok (x, y, dx, dy)).
Proof. unfold operands. rewrite !d_any. reflexivity. Qed.

(** The operands of a binary method, by the kind of [other]. *)
Lemma operands_Num_Num x dx y dy :
  operands (VNum x dx) (VNum y dy) = Ok (x, y, dx, dy).
Proof. rewrite operands_eq. reflexivity. Qed.

Lemma operands_Num_scalar x dx y :
  operands (VNum x dx) (VScalar y) = Ok (x, y, dx, py_float 0).
Proof. rewrite operands_eq. reflexivity. Qed.

Lemma operands_scalar_Num x y dy :
  operands (VScalar x) (VNum y dy) = Ok (x, y, py_float 0, dy).
Proof. rewrite operands_eq. reflexivity. Qed.



(** [d] under the recursion limit: [n] nested activations are needed. *)
Lemma d_frames_spec (frames : nat) var n :
  1 ≤ n →
  d_frames frames var n =
    if decide (n ≤ Z.of_nat frames) then Ok (d_dispatch var)
    else Raise RecursionError.
Proof.
  revert n. induction frames as [|k IH]; intros n Hn; simpl.
  - destruct (decide _); [lia | reflexivity].
  - destruct (Z_lt_dec 1 n) as [Hlt|Hge].
    + rewrite IH by lia.
      destruct (decide (n - 1 ≤ Z.of_nat k)),
               (decide (n ≤ Z.of_nat (S k))); try lia; reflexivity.
    + destruct (decide _); [reflexivity | lia].
Qed.


(** What [d] returns, with whatever stack, is what the recursion without a
    limit gives. *)
Lemma d_frames_d (frames : nat) var n r :
  d_frames frames var n = Ok r → r = d var n.
Proof.
  revert n. induction frames as [|k IH]; intros n; simpl.
  - discriminate.
  - rewrite (d_step var n). destruct (Z_lt_dec 1 n); [apply IH | congruence].
Qed.


End CoreFacts.

(** ** Where the exceptions of the methods come from *)

Section MethodFacts.
Context {scalar : Type} {PN : PyNumber scalar}.
Implicit Types (self other v : value scalar) (e : exn).










(** What the methods return is a [Num]. *)
Lemma Num_add_Num self other v :
  Num_add self other = Ok v → ∃ x dx, v = VNum x dx.
Proof.
  unfold Num_add. destruct (operands self other) as [[[[x y] dx] dy]|];
    simpl; [|discriminate].
  destruct (num_add x y); simpl; [|discriminate].
  destruct (num_add dx dy); simpl; [|discriminate].
  intros [= <-]. eauto.
Qed.

Lemma Num_sub_Num self other v :
  Num_sub self other = Ok v → ∃ x dx, v = VNum x dx.
Proof.
  unfold Num_sub. destruct (operands self other) as [[[[x y] dx] dy]|];
    simpl; [|discriminate].
  destruct (num_sub x y); simpl; [|discriminate].
  destruct (num_sub dx dy); simpl; [|discriminate].
  intros [= <-]. eauto.
Qed.

Lemma Num_mul_Num self other v :
  Num_mul self other = Ok v → ∃ x dx, v = VNum x dx.
Proof.
  unfold Num_mul. destruct (operands self other) as [[[[x y] dx] dy]|];
    simpl; [|discriminate].
  destruct (num_mul x y); simpl; [|discriminate].
  destruct (num_mul dx y); simpl; [|discriminate].
  destruct (num_mul x dy); simpl; [|discriminate].
  destruct (num_add _ _); simpl; [|discriminate].
  intros [= <-]. eauto.
Qed.

Lemma Num_truediv_Num self other v :
  Num_truediv self other = Ok v → ∃ x dx, v = VNum x dx.
Proof.
  unfold Num_truediv. destruct (operands self other) as [[[[x y] dx] dy]|];
    simpl; [|discriminate].
  destruct (num_eq y _) as [[]|]; simpl; [| |discriminate].
  - intros [= <-]. eauto.
  - destruct (num_truediv x y); simpl; [|discriminate].
    destruct (num_mul dx y); simpl; [|discriminate].
    destruct (num_mul x dy); simpl; [|discriminate].
    destruct (num_sub _ _); simpl; [|discriminate].
    destruct (num_pow _ _); simpl; [|discriminate].
    destruct (num_truediv _ _); simpl; [|discriminate].
    intros [= <-]. eauto.
Qed.

Lemma Num_pow_Num self other v :
  Num_pow self other = Ok v → ∃ x dx, v = VNum x dx.
Proof.
  unfold Num_pow. destruct (operands self other) as [[[[x y] dx] dy]|];
    simpl; [|discriminate].
  destruct (num_pow x y); simpl; [|discriminate].
  destruct (num_sub _ _); simpl; [|discriminate].
  destruct (num_pow _ _); simpl; [|discriminate].
  destruct (num_mul _ _); simpl; [|discriminate].
  intros [= <-]. eauto.
Qed.

Lemma Num_rsub_Num self other v :
  Num_rsub self other = Ok v → ∃ x dx, v = VNum x dx.
Proof.
  unfold Num_rsub. destruct (Num_neg self); simpl;
    [apply Num_add_Num | discriminate].
Qed.


End MethodFacts.

(** ** Facts about tools.py *)

Section ToolsFacts.
Context {scalar : Type} {PN : PyNumber scalar}.
Implicit Types (fp : dres scalar) (atol x : scalar) (maxiter cell : Z)
  (l : locals scalar).

(** The cell of [wrapped] after a pass, and the [nfev] it hands back. *)
Lemma body_cell (fun_ : callable scalar) fp atol cell x :
  fst (body fun_ fp atol cell x) = cell + 1.
Proof. reflexivity. Qed.

Lemma body_nfev (fun_ : callable scalar) fp atol cell x p :
  snd (body fun_ fp atol cell x) = Ok p →
  match p with Break nfev | Next nfev _ => nfev = cell + 1 end.
Proof.
  unfold body, wrapped; simpl.
  destruct (fun_ (VScalar x)) as [[f_x0| |]|]; simpl; try discriminate.
  destruct (num_abs f_x0) as [a|]; simpl; try discriminate.
  destruct (num_lt a atol) as [[]|]; simpl; try discriminate.
  - intros [= <-]. reflexivity.
  - destruct (num_neg f_x0); simpl; try discriminate.
    destruct (call_fprime fp x); simpl; try discriminate.
    destruct (num_truediv _ _); simpl; try discriminate.
    destruct (num_add _ _); simpl; try discriminate.
    intros [= <-]. reflexivity.
Qed.

Lemma loop_outcome (fun_ : callable scalar) fp atol maxiter cell l :
  at_test cell l →
  match loop fun_ fp atol maxiter cell l with
  | Ok l' => converged maxiter l l' ∨ exhausted maxiter l l'
  | Raise e => ∃ cell' x, snd (body fun_ fp atol cell' x) = Raise e
  end.
Proof.
  funelim (loop fun_ fp atol maxiter cell l);
    intros (Hcell & Hpos & Hsucc & Hnfev).
  - right. repeat split; simpl; auto. lia.
  - match goal with Hb : _ = Ok (Break _) |- _ =>
      change (snd (body fun_ _fprime atol cell (l_x0 l)) = Ok (Break nfev))
        in Hb; apply body_nfev in Hb end.
    subst nfev cell. left. repeat split; simpl; auto; lia.
  - match goal with Hb : _ = Ok (Next _ _) |- _ =>
      change (snd (body fun_ _fprime atol cell (l_x0 l)) = Ok (Next nfev x0))
        in Hb; apply body_nfev in Hb end.
    subst nfev cell.
    match goal with IH : ?A → _ |- _ =>
      assert (Hat : A); [|specialize (IH Hat); revert IH] end.
    + repeat split; simpl; auto; try lia.
      destruct (Z.eqb_spec (l_count l + 1) 0); [lia|]. reflexivity.
    + destruct (loop _ _ _ _ _ _) as [l'|e]; [|auto].
      intros [(?&?&?&?)|(?&?&?&?)]; [left|right];
        repeat split; simpl in *; auto; lia.
  - exists cell, (l_x0 l). assumption.
Qed.

(** Without a pass the loop leaves [nfev] unbound. *)
Lemma loop_no_pass (fun_ : callable scalar) fp atol maxiter cell l :
  maxiter ≤ l_count l →
  loop fun_ fp atol maxiter cell l =
    Ok (Locals (Some "max iterations reached."%string) (l_success l)
               (l_count l) (l_nfev l) (l_x0 l)).
Proof.
  intros Hle. rewrite loop_equation_1. unfold loop_unfold_clause_1.
  destruct (Z_lt_dec (l_count l) maxiter); [lia | reflexivity].
Qed.

Lemma newton_no_pass (fun_ : callable scalar) x atol maxiter :
  maxiter ≤ 0 → newton fun_ x atol maxiter = Raise UnboundLocalError.
Proof.
  intros Hle. unfold newton. rewrite loop_no_pass by (simpl; lia).
  reflexivity.
Qed.

(** The outcomes of [newton]. *)
Lemma newton_outcome (fun_ : callable scalar) x atol maxiter :
  match newton fun_ x atol maxiter with
  | Ok r =>
      (∃ nit x', 0 ≤ nit < maxiter ∧
         r = make_Result "converged." true nit (2 * (nit + 1)) x') ∨
      (∃ x', 1 ≤ maxiter ∧
         r = make_Result "max iterations reached." false maxiter
               (2 * maxiter) x')
  | Raise e =>
      (maxiter ≤ 0 ∧ e = UnboundLocalError) ∨
      (∃ cell x', snd (body fun_ (d (Fn fun_) 1) atol cell x') = Raise e)
  end.
Proof.
  unfold newton.
  pose proof (loop_outcome fun_ (d (Fn fun_) 1) atol maxiter 0
                (Locals None false 0 None x)) as Hl.
  lapply Hl; [clear Hl; intros Hl | repeat split; simpl; lia].
  destruct (loop _ _ _ _ _ _) as [[msg success count nfev x']|e];
    simpl in *; [|right; exact Hl].
  destruct Hl as [(Hs & Hm & Hc & Hn)|(Hs & Hm & Hc & Hn)];
    simpl in *; subst; simpl.
  - left. exists count, x'. split; [lia | reflexivity].
  - destruct (Z.eqb_spec (0 `max` maxiter) 0) as [Heq|Hne]; simpl.
    + left. split; [lia | reflexivity].
    + right. exists x'. split; [lia|].
      replace (0 `max` maxiter) with maxiter by lia. reflexivity.
Qed.


End ToolsFacts.

(** ** Facts about int and float *)

Module PyIntFloatFacts.
Import PyIntFloat.

Lemma float_add_comm (a b : float) : (a + b = b + a)%float.
Proof.
  apply Prim2SF_inj. rewrite !add_spec. unfold SF64add, SFadd.
  destruct (Prim2SF a) as [sa|sa| |sa ma ea],
           (Prim2SF b) as [sb|sb| |sb mb eb]; try reflexivity.
  - destruct sa, sb; reflexivity.
  - destruct sa, sb; reflexivity.
  - rewrite (Z.min_comm eb ea). f_equal. apply Z.add_comm.
Qed.

Lemma float_mul_comm (a b : float) : (a * b = b * a)%float.
Proof.
  apply Prim2SF_inj. rewrite !mul_spec. unfold SF64mul, SFmul.
  destruct (Prim2SF a) as [sa|sa| |sa ma ea],
           (Prim2SF b) as [sb|sb| |sb mb eb];
    try reflexivity; rewrite ?(xorb_comm sb sa); try reflexivity.
  rewrite (Pos.mul_comm mb ma), (Z.add_comm eb ea). reflexivity.
Qed.

(** Converting an [int] raises nothing but [OverflowError]. *)
Lemma as_float_raise (s : scalar) e :
  as_float s = Raise e → e = OverflowError.
Proof.
  destruct s as [n|f]; simpl; [|discriminate].
  unfold float_of_int, finite_or_overflow.
  destruct (binary_normalize _ _ _ _ _); congruence.
Qed.

Lemma float_op_comm (op : float → float → float) (x y : scalar) :
  (∀ a b, op a b = op b a) → float_op op x y = float_op op y x.
Proof.
  intros Hop. unfold float_op.
  destruct (as_float x) as [a|e1] eqn:Hx, (as_float y) as [b|e2] eqn:Hy;
    simpl; try reflexivity.
  - rewrite (Hop a b). reflexivity.
  - apply as_float_raise in Hx, Hy. congruence.
Qed.

Lemma add_comm (x y : scalar) : add x y = add y x.
Proof.
  destruct x as [a|a], y as [b|b]; simpl;
    auto using float_op_comm, float_add_comm.
  rewrite (Z.add_comm a b). reflexivity.
Qed.

Lemma mul_comm (x y : scalar) : mul x y = mul y x.
Proof.
  destruct x as [a|a], y as [b|b]; simpl;
    auto using float_op_comm, float_mul_comm.
  rewrite (Z.mul_comm a b). reflexivity.
Qed.








End PyIntFloatFacts.

Module PyIntFloatLaws.
Import PyIntFloat PyIntFloatFacts.

Lemma number_comm float_pow : PyNumberComm (number float_pow).
Proof. split; [exact add_comm | exact mul_comm]. Qed.

(** The two closed examples of a raising operation below do not depend on
    the power of floats. *)
Lemma truediv_overflow float_pow :
  Num_truediv (PN := number float_pow) (VNum (SFloat 1) (SFloat 1))
    (VScalar (SInt (10 ^ 400))) = Raise OverflowError.
Proof. vm_compute. reflexivity. Qed.

Lemma newton_zero_derivative float_pow :
  newton (PN := number float_pow) (f_square (PN := number float_pow))
    (SInt 0) (SFloat 0x1.5798ee2308c3ap-27) 200 = Raise ZeroDivisionError.
Proof. vm_compute. reflexivity. Qed.

End PyIntFloatLaws.

(** ** The claims about core.py *)

Import PyIntFloat.
#[local] Existing Instance python.

(** C1 (not met by the code).  [Num.__pow__] computes [dx] and leaves it out of the
    derivative: for [Num(3, 2) ** 2] it returns [Num(9, 6)], where the rule
    [(x ** y, y * x ** (y - 1) * dx)] gives [(9, 12)]; and whatever the
    platform, the result of [a ** y] is the same for every derivative part
    of [a]. *)
Theorem C1_pow_leaves_dx_out :
  (∀ float_pow,
     Num_pow (PN := number float_pow) (VNum (SInt 3) (SInt 2))
       (VScalar (SInt 2)) = Ok (VNum (SInt 9) (SInt 6)) ∧
     spec_pow (PN := number float_pow) (SInt 3) (SInt 2) (SInt 2) =
       Ok (VNum (SInt 9) (SInt 12))) ∧
  (∀ scalar (PN : PyNumber scalar) (x dx dx' y : scalar),
     Num_pow (VNum x dx) (VScalar y) = Num_pow (VNum x dx') (VScalar y)).
Proof.
  split.
  - intros float_pow. split; reflexivity.
  - intros. unfold Num_pow. rewrite !operands_Num_scalar. reflexivity.
Qed.

(** C2.  For a callable [f], [d(f)] is a function [g], and [g(x)] is the
    attribute [dx] of [f(Num(x, 1.0))] (an exception raised by [f], or by
    the attribute access when [f] returns no [Num], is raised by [g]); for
    [f = lambda x: 3 + x - x**3], [d(f)(7)] is the float [-146.0]. *)
Theorem C2_d_of_callable :
  (∀ scalar (PN : PyNumber scalar) (f : callable scalar),
     ∃ g, d (Fn f) 1 = DFn g ∧
       ∀ x, g x = match f (VNum x (py_float 1)) with
                  | Ok (VNum _ dx) => Ok dx
                  | Ok (VScalar _) | Ok (VOther _) => Raise AttributeError
                  | Raise e => Raise e
                  end) ∧
  (∀ float_pow,
     ∃ g, d (PN := number float_pow)
            (Fn (f_doc (PN := number float_pow))) 1 = DFn g ∧
       g (SInt 7) = Ok (SFloat (-146))).
Proof.
  split.
  - intros scalar PN f. exists (fprime f). split.
    + rewrite d_any. reflexivity.
    + intros x. unfold fprime.
      destruct (f (VNum x (py_float 1))) as [[| |]|]; reflexivity.
  - intros float_pow. eexists. split.
    + rewrite d_any. reflexivity.
    + reflexivity.
Qed.

(** C3, counterexample.  [10**400] is not zero, and [Num(1.0, 1.0) / 10**400]
    raises [OverflowError]: the quotient [1.0 / 10**400] converts the
    integer to a float. *)
Lemma C3_division_raises :
  num_eq (PyNumber := python) (SInt (10 ^ 400)) (SFloat 0) = Ok false ∧
  Num_truediv (PN := python) (VNum (SFloat 1) (SFloat 1))
    (VScalar (SInt (10 ^ 400))) = Raise OverflowError.
Proof. split; vm_compute; reflexivity. Qed.

(** C3, as amended.  For a dual number [a = (x, dx)] and a divisor [b] that
    is a dual number [(y, dy)] or a scalar [y] (then [dy] is [0.]): when
    [y == 0.] holds, [a / b] is [Num(inf, inf)] and nothing is raised;
    when it does not hold, [a / b] evaluates [x / y], [dx*y], [x*dy], their
    difference, [y**2] and the second quotient in this order, returns the
    dual number of the two quotients, and raises what the first failing
    operation raises (the guard covers [y == 0.] only). *)
Theorem C3_truediv {scalar} {PN : PyNumber scalar} (x dx y dy : scalar)
    (b : value scalar) :
  b = VNum y dy ∨ (b = VScalar y ∧ dy = py_float 0) →
  (num_eq y (py_float 0) = Ok true →
     Num_truediv (VNum x dx) b =
       Ok (VNum (py_float infinity) (py_float infinity))) ∧
  (num_eq y (py_float 0) = Ok false →
     Num_truediv (VNum x dx) b =
       (x' ← num_truediv x y;
        p ← num_mul dx y;
        q ← num_mul x dy;
        c ← num_sub p q;
        y2 ← num_pow y (py_int 2);
        dx' ← num_truediv c y2;
        Ok (VNum x' dx'))) ∧
  (∀ e, num_eq y (py_float 0) = Raise e →
     Num_truediv (VNum x dx) b = Raise e).
Proof.
  intros Hb.
  assert (operands (VNum x dx) b = Ok (x, y, dx, dy)) as Hop.
  { destruct Hb as [->|[-> ->]];
      [apply operands_Num_Num | apply operands_Num_scalar]. }
  unfold Num_truediv. rewrite Hop. simpl.
  repeat split; intros; match goal with H : num_eq _ _ = _ |- _ =>
    rewrite H end; reflexivity.
Qed.

Lemma C3_truediv_witness :
  (VScalar (SInt 4) = VScalar (SInt 4) ∧ SFloat 0 = py_float (PyNumber := python) 0) ∧
  Num_truediv (PN := python) (VNum (SInt 1) (SFloat 1)) (VScalar (SInt 4)) =
    Ok (VNum (SFloat 0.25) (SFloat 0.25)).
Proof.
  split; [split; reflexivity|].
  destruct (C3_truediv (PN := python) (SInt 1) (SFloat 1) (SInt 4) (SFloat 0)
              (VScalar (SInt 4)) (or_intror (conj eq_refl eq_refl)))
    as (_ & Hnz & _).
  rewrite Hnz; reflexivity.
Defined.

(** C5.  For dual numbers [a = (x, dx)] and [b = (y, dy)], and for a scalar
    [y] as second operand with [dy = 0.]: [a + b] is the dual number of
    [x + y] and [dx + dy], [a - b] that of [x - y] and [dx - dy], [a * b]
    that of [x * y] and [dx*y + x*dy] (evaluated in this order, the first
    exception raised by the scalars is raised).  The reflected methods are
    the methods.  Where [+] and [*] commute on scalars, [a + b] is [b + a],
    and [a * b] and [b * a] return the same dual number or both raise.
    On [int] and [float] they commute, and [y + a] and [y * a], which
    Python hands to the reflected methods, are [a + y] and [a * y]. *)
Theorem C5_add_sub_mul :
  (∀ scalar (PN : PyNumber scalar) (x dx y dy : scalar),
     let a := VNum x dx in
     let b := VNum y dy in
     (Num_add a b =
        (x' ← num_add x y; dx' ← num_add dx dy; Ok (VNum x' dx')) ∧
      Num_add a (VScalar y) =
        (x' ← num_add x y; dx' ← num_add dx (py_float 0);
         Ok (VNum x' dx'))) ∧
     (Num_sub a b =
        (x' ← num_sub x y; dx' ← num_sub dx dy; Ok (VNum x' dx')) ∧
      Num_sub a (VScalar y) =
        (x' ← num_sub x y; dx' ← num_sub dx (py_float 0);
         Ok (VNum x' dx'))) ∧
     (Num_mul a b =
        (x' ← num_mul x y; p ← num_mul dx y; q ← num_mul x dy;
         dx' ← num_add p q; Ok (VNum x' dx')) ∧
      Num_mul a (VScalar y) =
        (x' ← num_mul x y; p ← num_mul dx y; q ← num_mul x (py_float 0);
         dx' ← num_add p q; Ok (VNum x' dx'))) ∧
     (Num_radd a b = Num_add a b ∧ Num_rmul a b = Num_mul a b ∧
      Num_radd a (VScalar y) = Num_add a (VScalar y) ∧
      Num_rmul a (VScalar y) = Num_mul a (VScalar y)) ∧
     (PyNumberComm PN →
      Num_add a b = Num_add b a ∧ agree (Num_mul a b) (Num_mul b a))) ∧
  (∀ float_pow (x dx y dy : PyIntFloat.scalar),
     let a := VNum x dx in
     let b := VNum y dy in
     py_add (PN := number float_pow) (VScalar y) a =
       py_add (PN := number float_pow) a (VScalar y) ∧
     py_mul (PN := number float_pow) (VScalar y) a =
       py_mul (PN := number float_pow) a (VScalar y) ∧
     Num_add (PN := number float_pow) a b =
       Num_add (PN := number float_pow) b a ∧
     agree (Num_mul (PN := number float_pow) a b)
           (Num_mul (PN := number float_pow) b a)).
Proof.
  assert (∀ scalar (PN : PyNumber scalar) (x dx y dy : scalar),
            PyNumberComm PN →
            Num_add (VNum x dx) (VNum y dy) =
              Num_add (VNum y dy) (VNum x dx) ∧
            agree (Num_mul (VNum x dx) (VNum y dy))
                  (Num_mul (VNum y dy) (VNum x dx))) as Hcomm.
  { intros scalar PN x dx y dy HC. unfold Num_add, Num_mul.
    rewrite !operands_Num_Num. simpl. split.
    - rewrite (num_add_comm y x), (num_add_comm dy dx). reflexivity.
    - rewrite (num_mul_comm y x), (num_mul_comm dy x), (num_mul_comm y dx).
      destruct (num_mul x y); simpl; [|exact I].
      destruct (num_mul dx y) as [p|], (num_mul x dy) as [q|];
        simpl; try exact I.
      rewrite (num_add_comm q p).
      destruct (num_add p q); simpl; [reflexivity | exact I]. }
  split.
  - intros scalar PN x dx y dy a b. subst a b.
    split; [|split; [|split; [|split]]]; try (apply Hcomm);
      unfold Num_radd, Num_rmul, Num_add, Num_sub, Num_mul;
      rewrite ?operands_Num_Num, ?operands_Num_scalar; simpl;
      repeat split; reflexivity.
  - intros float_pow x dx y dy a b. subst a b.
    split; [reflexivity|]. split; [reflexivity|].
    apply Hcomm, PyIntFloatLaws.number_comm.
Qed.

Lemma C5_add_sub_mul_witness :
  PyNumberComm python ∧
  let a := VNum (SInt 3) (SFloat 1) in
  let b := VNum (SFloat 2.5) (SInt 2) in
  Num_add (PN := python) a b = Num_add (PN := python) b a ∧
  agree (Num_mul (PN := python) a b) (Num_mul (PN := python) b a).
Proof.
  split; [apply PyIntFloatLaws.number_comm|].
  destruct (proj1 C5_add_sub_mul _ python (SInt 3) (SFloat 1) (SFloat 2.5)
              (SInt 2)) as (_ & _ & _ & _ & Hc).
  apply Hc, PyIntFloatLaws.number_comm.
Defined.

(** C7, counterexample.  With the 1000 frames of the default recursion
    limit, or fewer, [d(Num(2, 5.0), 5000)] raises [RecursionError], where
    [d(Num(2, 5.0), 1)] returns [5.0]. *)
Lemma C7_d_recursion_limit :
  d_frames (PN := python) 1000 (Obj (VNum (SInt 2) (SFloat 5))) 5000 =
    Raise RecursionError ∧
  d_frames (PN := python) 1000 (Obj (VNum (SInt 2) (SFloat 5))) 1 =
    Ok (DScalar (SFloat 5)).
Proof. split; vm_compute; reflexivity. Qed.

(** C7, as amended.  For [n >= 1], [d(var, n)] opens [n] nested
    activations of [d]: above 1 the call recurses with [n - 1] on the same
    [var], and the dispatch is on [var] alone.  When the interpreter allows
    [n] of them, [d(var, n)] returns what [d(var, 1)] returns, and for a
    callable the same closure [fprime] for every [n]; when it does not,
    [d(var, n)] raises [RecursionError]. *)
Theorem C7_d_collapses {scalar} {PN : PyNumber scalar} (frames : nat)
    (var : pyarg scalar) (n : Z) :
  1 ≤ n →
  (n ≤ Z.of_nat frames →
     d_frames frames var n = d_frames frames var 1 ∧
     d_frames frames var n = Ok (d var 1) ∧
     (∀ f, var = Fn f → d_frames frames var n = Ok (DFn (fprime f)))) ∧
  (1 < n → d_frames (S frames) var n = d_frames frames var (n - 1)) ∧
  (Z.of_nat frames < n → d_frames frames var n = Raise RecursionError).
Proof.
  intros Hn. split; [|split].
  - intros Hle. rewrite !d_frames_spec by lia. rewrite d_any.
    destruct (decide (n ≤ Z.of_nat frames)); [|lia].
    destruct (decide (1 ≤ Z.of_nat frames)); [|lia].
    repeat split. intros f ->. reflexivity.
  - intros Hlt. simpl. destruct (Z_lt_dec 1 n); [reflexivity | lia].
  - intros Hlt. rewrite d_frames_spec by lia.
    destruct (decide (n ≤ Z.of_nat frames)); [lia | reflexivity].
Qed.

Lemma C7_d_collapses_witness :
  (1 ≤ 3 ∧ 3 ≤ Z.of_nat 900) ∧
  d_frames (PN := python) 900 (Fn (f_doc (PN := python))) 3 =
    d_frames (PN := python) 900 (Fn (f_doc (PN := python))) 1.
Proof.
  assert (1 ≤ 3) as H1 by lia.
  assert (3 ≤ Z.of_nat 900) as H2 by (vm_compute; discriminate).
  split; [split; assumption|].
  destruct (C7_d_collapses (PN := python) 900 (Fn (f_doc (PN := python))) 3
              H1) as [H _].
  destruct (H H2) as [Heq _]. exact Heq.
Defined.



(** ** The claims about tools.py *)

Lemma make_Result_fields {scalar} message success nit nfev (x : scalar) :
  let r := make_Result message success nit nfev x in
  r !! "message" = Some (FStr message) ∧
  r !! "success" = Some (FBool success) ∧
  r !! "nit" = Some (FInt nit) ∧
  r !! "nfev" = Some (FInt nfev) ∧
  r !! "x" = Some (FObj (VScalar x)).
Proof. repeat split. Qed.

(** When the bound is at least 1 and the result is a failure, the loop made
    [maxiter] passes: C6 holds from [maxiter = 1] on. *)
Lemma newton_exhausted {scalar} {PN : PyNumber scalar} (f : callable scalar)
    (x0 atol : scalar) (maxiter : Z) (r : Result scalar) :
  newton f x0 atol maxiter = Ok r →
  r !! "success" = Some (FBool false) →
  1 ≤ maxiter ∧
  r !! "message" = Some (FStr "max iterations reached.") ∧
  r !! "nit" = Some (FInt maxiter) ∧
  r !! "nfev" = Some (FInt (2 * maxiter)).
Proof.
  intros Hr Hs. pose proof (newton_outcome f x0 atol maxiter) as Ho.
  rewrite Hr in Ho.
  destruct Ho as [(nit & x' & Hnit & ->)|(x' & Hm & ->)].
  - discriminate Hs.
  - repeat split; assumption.
Qed.




(** C6 (not met by the code).  With [maxiter = 0] the loop is exhausted at once, and
    [newton] raises [UnboundLocalError] where a [Result] with [nit == 0] and
    [nfev == 0] is due: [nfev] is assigned in the body of the loop only, and
    the [return] statement reads it. *)
Theorem C6_newton_without_pass {scalar} {PN : PyNumber scalar}
    (f : callable scalar) (x0 atol : scalar) :
  newton f x0 atol 0 = Raise UnboundLocalError.
Proof. apply newton_no_pass. lia. Qed.

(** C9, counterexample.  [Result(success=1)] has the key [success], its
    value is not [True], and the record is not falsy: testing it raises
    [TypeError], since [__bool__] hands back the int [1]. *)
Lemma C9_truth_raises :
  (<["success" := FInt 1]> ∅ : Result PyIntFloat.scalar) !! "success" ≠
    Some (FBool true) ∧
  truth (<["success" := FInt 1]> ∅ : Result PyIntFloat.scalar) =
    Raise TypeError.
Proof. split; [discriminate | reflexivity]. Qed.

(** C9, as amended.  The truth value of a [Result] is [True] exactly when
    the key [success] is present with the value [True]; it is [False]
    exactly when the key is absent or its value is [False]; and when the
    key holds anything that is not a [bool], the test raises
    [TypeError]. *)
Theorem C9_Result_truth {scalar} (r : Result scalar) :
  (truth r = Ok true ↔ r !! "success" = Some (FBool true)) ∧
  (truth r = Ok false ↔
   r !! "success" = None ∨ r !! "success" = Some (FBool false)) ∧
  (∀ v, r !! "success" = Some v → (∀ b, v ≠ FBool b) →
        truth r = Raise TypeError).
Proof.
  unfold truth, Result_bool, Result in *.
  destruct (decide ("success" ∈ dom r)) as [Hin|Hnin].
  - apply elem_of_dom in Hin as [v Hv]. rewrite Hv. simpl.
    split; [|split].
    + destruct v as [| [] | |]; split; congruence.
    + split.
      * destruct v as [| [] | |]; intros H; try discriminate H.
        right. reflexivity.
      * intros [H|H]; [discriminate H | injection H as ->; reflexivity].
    + intros w [= <-] Hw. destruct v as [|b| |]; try reflexivity.
      destruct (Hw b). reflexivity.
  - apply not_elem_of_dom in Hnin. rewrite Hnin.
    split; [|split].
    + split; congruence.
    + split; [tauto | reflexivity].
    + congruence.
Qed.

Lemma C9_Result_truth_witness :
  (<["success" := FStr "yes"]> ∅ : Result PyIntFloat.scalar) !! "success" =
    Some (FStr "yes") ∧
  truth (<["success" := FStr "yes"]> ∅ : Result PyIntFloat.scalar) =
    Raise TypeError.
Proof.
  split; [reflexivity|].
  apply (C9_Result_truth
           (<["success" := FStr "yes"]> ∅ : Result PyIntFloat.scalar))
    with (v := FStr "yes"); [reflexivity | discriminate].
Defined.

(** C10.  When [newton] returns a [Result] whose [success] is [True], its
    message is ["converged."], [nit] is below [maxiter], and [nfev] is
    [2 * (nit + 1)]: the pass that meets the tolerance calls [f] once more
    and leaves [count] as it is. *)
Theorem C10_newton_converged {scalar} {PN : PyNumber scalar}
    (f : callable scalar) (x0 atol : scalar) (maxiter : Z)
    (r : Result scalar) :
  newton f x0 atol maxiter = Ok r →
  r !! "success" = Some (FBool true) →
  ∃ nit,
    r !! "nit" = Some (FInt nit) ∧ 0 ≤ nit < maxiter ∧
    r !! "nfev" = Some (FInt (2 * (nit + 1))) ∧
    r !! "message" = Some (FStr "converged.").
Proof.
  intros Hr Hs. pose proof (newton_outcome f x0 atol maxiter) as Ho.
  rewrite Hr in Ho.
  destruct Ho as [(nit & x' & Hnit & ->)|(x' & Hm & ->)].
  - exists nit. repeat split; lia.
  - discriminate Hs.
Qed.

Lemma C10_newton_converged_witness :
  newton (PN := python) f_linear (SInt 3) (SFloat 0.5) 200 =
    Ok (make_Result "converged." true 1 4 (SFloat 1)) ∧
  ∃ nit,
    make_Result "converged." true 1 4 (SFloat 1) !! "nit" =
      Some (FInt nit) ∧
    0 ≤ nit < 200 ∧
    make_Result "converged." true 1 4 (SFloat 1) !! "nfev" =
      Some (FInt (2 * (nit + 1))) ∧
    make_Result "converged." true 1 4 (SFloat 1) !! "message" =
      Some (FStr "converged.").
Proof.
  split; [vm_compute; reflexivity|].
  apply (C10_newton_converged (PN := python) f_linear (SInt 3) (SFloat 0.5)
           200).
  - vm_compute. reflexivity.
  - reflexivity.
Defined.

(** ** Further properties of core.py *)

(** X1.  Forward-mode differentiation is exact on integers: a program over
    [+], [-] and [*] whose constants are the dual numbers [Num(c, 0)],
    run on the dual number [Num(x, dx)] with int fields, returns the dual
    number of the value of the expression at [x] and of its derivative at
    [x] times [dx], and raises nothing. *)
Theorem X1_poly_run_exact (float_pow : float → float → res scalar)
    (p : poly) (x dx : Z) :
  poly_run (PN := number float_pow) p (VNum (SInt x) (SInt dx)) =
    Ok (VNum (SInt (poly_eval p x)) (SInt (poly_deriv p x * dx))).
Proof.
  induction p as [|c|p IHp q IHq|p IHp q IHq|p IHp q IHq]; simpl.
  - do 3 f_equal. lia.
  - reflexivity.
  - rewrite IHp, IHq. simpl. unfold Num_add.
    rewrite operands_Num_Num. simpl. do 3 f_equal. lia.
  - rewrite IHp, IHq. simpl. unfold Num_sub.
    rewrite operands_Num_Num. simpl. do 3 f_equal. lia.
  - rewrite IHp, IHq. simpl. unfold Num_mul.
    rewrite operands_Num_Num. simpl. do 3 f_equal. lia.
Qed.

(** X2.  The power rule on integers: for an int [x] and an int exponent
    [n >= 1], given as a scalar or as the value of a dual number,
    [Num(x, dx) ** n] is [Num(x**n, n * x**(n-1))], with int fields and
    whatever [dx] is. *)
Theorem X2_pow_int (float_pow : float → float → res scalar) (x n : Z)
    (dx dy : scalar) :
  1 ≤ n →
  Num_pow (PN := number float_pow) (VNum (SInt x) dx) (VScalar (SInt n)) =
    Ok (VNum (SInt (x ^ n)) (SInt (n * x ^ (n - 1)))) ∧
  Num_pow (PN := number float_pow) (VNum (SInt x) dx) (VNum (SInt n) dy) =
    Ok (VNum (SInt (x ^ n)) (SInt (n * x ^ (n - 1)))).
Proof.
  intros Hn. unfold Num_pow.
  rewrite operands_Num_scalar, operands_Num_Num. simpl.
  destruct (Z.leb_spec 0 n); [|lia].
  destruct (Z.leb_spec 0 (n - 1)); [|lia].
  split; reflexivity.
Qed.

Lemma X2_pow_int_witness :
  1 ≤ 2 ∧
  Num_pow (PN := python) (VNum (SInt 7) (SFloat 1)) (VScalar (SInt 2)) =
    Ok (VNum (SInt (7 ^ 2)) (SInt (2 * 7 ^ (2 - 1)))).
Proof.
  split; [lia|].
  apply (X2_pow_int no_float_pow 7 2 (SFloat 1) (SFloat 0)). lia.
Defined.

(** X3.  [Num.__pow__] ignores the derivative of the exponent: a dual
    number as exponent gives what its value gives. *)
Theorem X3_pow_ignores_dy {scalar} {PN : PyNumber scalar}
    (x dx y dy : scalar) :
  Num_pow (VNum x dx) (VNum y dy) = Num_pow (VNum x dx) (VScalar y).
Proof.
  unfold Num_pow. rewrite operands_Num_Num, operands_Num_scalar. reflexivity.
Qed.



(** X5.  Dual numbers are closed under the operators: when [a + b],
    [a - b], [a * b], [a / b] or [a ** b] has a dual number on the left
    and returns, it returns a [Num], whatever the numbers of the platform
    are; and so do [y + b], [y - b], [y * b] and [y / b] for an [int] or a
    [float] [y] on the left of a dual number. *)
Theorem X5_operators_return_Num :
  (∀ scalar (PN : PyNumber scalar) (x dx : scalar) (b v : value scalar),
     let a := VNum x dx in
     py_add a b = Ok v ∨ py_sub a b = Ok v ∨ py_mul a b = Ok v ∨
     py_truediv a b = Ok v ∨ py_pow a b = Ok v →
     ∃ x' dx', v = VNum x' dx') ∧
  (∀ float_pow (y x dx : PyIntFloat.scalar) (v : value PyIntFloat.scalar),
     let a := VScalar y in
     let b := VNum x dx in
     py_add (PN := number float_pow) a b = Ok v ∨
     py_sub (PN := number float_pow) a b = Ok v ∨
     py_mul (PN := number float_pow) a b = Ok v ∨
     py_truediv (PN := number float_pow) a b = Ok v →
     ∃ x' dx', v = VNum x' dx').
Proof.
  split.
  - intros scalar PN x dx b v a. subst a.
    unfold py_add, py_sub, py_mul, py_truediv, py_pow.
    intros [H|[H|[H|[H|H]]]].
    + exact (Num_add_Num _ _ _ H).
    + exact (Num_sub_Num _ _ _ H).
    + exact (Num_mul_Num _ _ _ H).
    + exact (Num_truediv_Num _ _ _ H).
    + exact (Num_pow_Num _ _ _ H).
  - intros float_pow y x dx v a b. subst a b.
    unfold py_add, py_sub, py_mul, py_truediv, Num_radd, Num_rmul,
      Num_rtruediv.
    intros [H|[H|[H|H]]].
    + exact (Num_add_Num _ _ _ H).
    + exact (Num_rsub_Num _ _ _ H).
    + exact (Num_mul_Num _ _ _ H).
    + exact (Num_truediv_Num _ _ _ H).
Qed.

Lemma X5_operators_return_Num_witness :
  py_add (PN := python) (VScalar (SInt 3)) (VNum (SInt 7) (SFloat 1)) =
    Ok (VNum (SInt 10) (SFloat 1)) ∧
  ∃ x dx, VNum (SInt 10) (SFloat 1) = VNum x dx.
Proof.
  split; [vm_compute; reflexivity|].
  apply (proj2 X5_operators_return_Num no_float_pow (SInt 3) (SInt 7)
           (SFloat 1)).
  left. vm_compute. reflexivity.
Defined.

(** X6.  The reflected division [y / a] of an [int] or a [float] [y] by a
    dual number [a = (x, dx)] is [Num.__rtruediv__], and this method, for
    every kind of number, is [Num.__truediv__] on the swapped operands,
    where the dividend has the derivative [0.]: when [x == 0.] holds it is
    [Num(inf, inf)] whatever [y] is (its sign plays no part), and otherwise
    the dual number of [y / x] and [(0.*x - y*dx) / x**2]. *)
Theorem X6_rtruediv :
  (∀ float_pow (x dx y : PyIntFloat.scalar),
     py_truediv (PN := number float_pow) (VScalar y) (VNum x dx) =
       Num_rtruediv (PN := number float_pow) (VNum x dx) (VScalar y)) ∧
  (∀ scalar (PN : PyNumber scalar) (x dx y : scalar),
     (num_eq x (py_float 0) = Ok true →
        Num_rtruediv (VNum x dx) (VScalar y) =
          Ok (VNum (py_float infinity) (py_float infinity))) ∧
     (num_eq x (py_float 0) = Ok false →
        Num_rtruediv (VNum x dx) (VScalar y) =
          (x' ← num_truediv y x;
           p ← num_mul (py_float 0) x;
           q ← num_mul y dx;
           c ← num_sub p q;
           x2 ← num_pow x (py_int 2);
           dx' ← num_truediv c x2;
           Ok (VNum x' dx')))).
Proof.
  split; [reflexivity|].
  intros scalar PN x dx y.
  unfold Num_rtruediv, Num_truediv. rewrite operands_scalar_Num. simpl.
  split; intros ->; reflexivity.
Qed.

(** On int and float, a zero of either kind as value of the divisor. *)
Lemma X6_rtruediv_witness :
  num_eq (PyNumber := python) (SFloat (-0)) (py_float 0) = Ok true ∧
  Num_rtruediv (PN := python) (VNum (SFloat (-0)) (SFloat 1))
    (VScalar (SInt (-3))) =
    Ok (VNum (SFloat infinity) (SFloat infinity)).
Proof.
  split; [reflexivity|].
  apply (proj2 X6_rtruediv _ python (SFloat (-0)) (SFloat 1) (SInt (-3))).
  reflexivity.
Defined.

(** X7.  The function of the docstrings on integers: for every int [x],
    [f(x)] is the int [3 + x - x**3], and [d(f)(x)] is the float
    [1.0 - float(3 * x**2)]: it raises [OverflowError] when [3 * x**2]
    is too large for a float and nothing else. *)
Theorem X7_f_doc_on_int (float_pow : float → float → res scalar) (x : Z) :
  f_doc (PN := number float_pow) (VScalar (SInt x)) =
    Ok (VScalar (SInt (3 + x - x ^ 3))) ∧
  fprime (PN := number float_pow) f_doc (SInt x) =
    (c ← float_of_int (3 * x ^ 2); Ok (SFloat (1 - c))).
Proof.
  split; [reflexivity|].
  unfold fprime, f_doc. simpl. unfold Num_radd, Num_add, Num_pow.
  rewrite !operands_Num_scalar. simpl.
  unfold Num_sub. rewrite operands_Num_Num. simpl.
  unfold float_op. simpl. change (3 - 1) with 2.
  destruct (float_of_int (3 * x ^ 2)); reflexivity.
Qed.

Lemma float_add_nan_r (a : float) : (a + nan)%float = nan.
Proof.
  apply Prim2SF_inj. rewrite add_spec.
  change (Prim2SF nan) with S754_nan.
  unfold SF64add, SFadd. destruct (Prim2SF a); reflexivity.
Qed.

(** X8.  Negation is the product [-1 * self], whose derivative part is
    [dx * -1 + x * 0.]: for a dual number whose value is an infinity, such
    as the one a division by a zero returns, the derivative part of the
    negation is NaN for every float [dx], not [-dx]. *)
Theorem X8_neg_at_infinity (float_pow : float → float → res scalar)
    (dx : float) :
  Num_neg (PN := number float_pow) (VNum (SFloat infinity) (SFloat dx)) =
    Ok (VNum (SFloat neg_infinity) (SFloat nan)) ∧
  Num_neg (PN := number float_pow) (VNum (SFloat neg_infinity) (SFloat dx)) =
    Ok (VNum (SFloat infinity) (SFloat nan)) ∧
  (∀ x dx' : scalar,
     (q ← Num_truediv (PN := number float_pow) (VNum x dx')
            (VScalar (SInt 0));
      Num_neg (PN := number float_pow) q) =
       Ok (VNum (SFloat neg_infinity) (SFloat nan))).
Proof.
  assert (float_of_int (-1) = Ok (-1)%float) as Hm1
    by (vm_compute; reflexivity).
  assert (∀ x d : float, (x * 0)%float = nan →
            Num_neg (PN := number float_pow) (VNum (SFloat x) (SFloat d)) =
              Ok (VNum (SFloat (x * -1)) (SFloat nan))) as Hneg.
  { intros x d Hx. unfold Num_neg, Num_rmul, Num_mul.
    rewrite operands_Num_scalar.
    cbn -[float_of_int PrimFloat.mul PrimFloat.add].
    unfold float_op.
    cbn -[float_of_int PrimFloat.mul PrimFloat.add]. rewrite Hm1.
    cbn -[float_of_int PrimFloat.mul PrimFloat.add].
    rewrite Hx, float_add_nan_r. reflexivity. }
  split; [|split].
  - rewrite (Hneg infinity) by reflexivity. reflexivity.
  - rewrite (Hneg neg_infinity) by reflexivity. reflexivity.
  - intros x dx'. unfold Num_truediv. rewrite operands_Num_scalar.
    change (num_eq (PyNumber := number float_pow) (SInt 0) (py_float 0))
      with (Ok (A := bool) true).
    exact (Hneg infinity infinity eq_refl).
Qed.

(** ** Further properties of tools.py *)

(** One pass of the loop of [newton]. *)
Lemma loop_pass {scalar} {PN : PyNumber scalar} (f : callable scalar)
    (fp : dres scalar) (atol : scalar) (maxiter cell : Z)
    (l : locals scalar) :
  l_count l < maxiter →
  loop f fp atol maxiter cell l =
    match snd (body f fp atol cell (l_x0 l)) with
    | Raise e => Raise e
    | Ok (Break nfev) =>
        Ok (Locals (Some "converged."%string) true (l_count l) (Some nfev)
                   (l_x0 l))
    | Ok (Next nfev x0) =>
        loop f fp atol maxiter (cell + 1)
          (Locals (l_msg l) (l_success l) (l_count l + 1) (Some nfev) x0)
    end.
Proof.
  intros Hlt. rewrite loop_equation_1. unfold loop_unfold_clause_1.
  destruct (Z_lt_dec (l_count l) maxiter) as [Hl|]; [|lia].
  pose proof (body_cell f fp atol cell (l_x0 l)) as Hc.
  destruct (body f fp atol cell (l_x0 l)) as [cell' [[nfev|nfev x0]|e]];
    simpl in *; subst; reflexivity.
Qed.

(** X9.  The closure that [prepare] returns counts its calls: after any
    sequence of calls from a fresh cell on, the cell holds their number,
    calls that raised included; and the call number [i] (from 0) returns
    the count [i + 1] together with what [fun] returned, or raises what
    [fun] raised. *)
Theorem X9_prepare_counts {scalar} (f : callable scalar) (cell : Z)
    (xs : list (value scalar)) :
  fst (calls f cell xs) = cell + Z.of_nat (length xs) ∧
  length (snd (calls f cell xs)) = length xs ∧
  ∀ (i : nat) x, xs !! i = Some x →
    snd (calls f cell xs) !! i =
      Some (r ← f x; Ok (cell + Z.of_nat i + 1, r)).
Proof.
  revert cell. induction xs as [|x xs IH]; intros cell; simpl.
  - repeat split; [lia | intros i x [=]].
  - specialize (IH (cell + 1)).
    destruct (calls f (cell + 1) xs) as [cell' rs]. simpl in *.
    destruct IH as (Hc & Hl & Hi). repeat split; [lia | lia |].
    intros [|i] y Hy; simpl in *.
    + injection Hy as ->.
      replace (cell + Z.of_nat 0 + 1) with (cell + 1) by lia. reflexivity.
    + rewrite (Hi i y Hy).
      replace (cell + Z.of_nat (S i) + 1) with (cell + 1 + Z.of_nat i + 1)
        by lia.
      reflexivity.
Qed.

(** X10.  A start value that meets the tolerance is returned as it is:
    with a bound of at least one pass, when [abs(f(x0)) < atol] holds,
    [newton] returns [x0] itself with [nit == 0], [nfev == 2] and
    [success == True], and never evaluates the derivative ([f] is not
    called on a dual number). *)
Theorem X10_newton_at_root {scalar} {PN : PyNumber scalar}
    (f : callable scalar) (x0 atol y a : scalar) (maxiter : Z) :
  1 ≤ maxiter →
  f (VScalar x0) = Ok (VScalar y) →
  num_abs y = Ok a →
  num_lt a atol = Ok true →
  ∀ g : callable scalar,
    (∀ s, g (VScalar s) = f (VScalar s)) →
    newton g x0 atol maxiter = Ok (make_Result "converged." true 0 2 x0).
Proof.
  intros Hm Hf Ha Hlt g Hg. unfold newton.
  rewrite loop_pass by (simpl; lia).
  unfold body, wrapped. simpl. rewrite Hg, Hf. simpl. rewrite Ha. simpl.
  rewrite Hlt. reflexivity.
Qed.

Lemma X10_newton_at_root_witness :
  (1 ≤ 200 ∧
   f_linear (PN := python) (VScalar (SInt 1)) = Ok (VScalar (SInt 0)) ∧
   num_abs (PyNumber := python) (SInt 0) = Ok (SInt 0) ∧
   num_lt (PyNumber := python) (SInt 0) (SFloat 0.5) = Ok true) ∧
  newton (PN := python) f_linear (SInt 1) (SFloat 0.5) 200 =
    Ok (make_Result "converged." true 0 2 (SInt 1)).
Proof.
  split; [repeat split; lia|].
  apply (X10_newton_at_root (PN := python) f_linear (SInt 1) (SFloat 0.5)
           (SInt 0) (SInt 0) 200); try reflexivity. lia.
Defined.



(** X12.  [f] must return a dual number for a dual number: with a bound
    of at least one pass, when the start value misses the tolerance and
    [f(Num(x0, 1.0))] is not a [Num] (a function that ignores its argument,
    a constant), [newton] raises the [AttributeError] of [.dx]. *)
Theorem X12_newton_f_not_dual {scalar} {PN : PyNumber scalar}
    (f : callable scalar) (x0 atol y a n : scalar) (maxiter : Z)
    (v : value scalar) :
  1 ≤ maxiter →
  f (VScalar x0) = Ok (VScalar y) →
  num_abs y = Ok a →
  num_lt a atol = Ok false →
  num_neg y = Ok n →
  f (VNum x0 (py_float 1)) = Ok v →
  (∀ x dx, v ≠ VNum x dx) →
  newton f x0 atol maxiter = Raise AttributeError.
Proof.
  intros Hm Hf Ha Hlt Hn Hd Hv. unfold newton.
  rewrite loop_pass by (simpl; lia).
  unfold body, wrapped. simpl. rewrite Hf. simpl. rewrite Ha. simpl.
  rewrite Hlt. simpl. rewrite Hn. simpl.
  rewrite d_any. simpl. unfold fprime. rewrite Hd. simpl.
  destruct v as [|x dx|]; [reflexivity | destruct (Hv x dx eq_refl) |
                           reflexivity].
Qed.

Lemma X12_newton_f_not_dual_witness :
  newton (PN := python) (λ x, Ok (VScalar (SInt 5))) (SInt 3) (SFloat 0.5)
    200 = Raise AttributeError.
Proof.
  apply (X12_newton_f_not_dual (PN := python) (λ x, Ok (VScalar (SInt 5)))
           (SInt 3) (SFloat 0.5) (SInt 5) (SInt 5) (SInt (-5)) 200
           (VScalar (SInt 5))); try reflexivity; [lia | discriminate].
Defined.

Lemma truediv_by_zero (n fp : scalar) (nf : float) :
  as_float n = Ok nf →
  eq fp (SFloat 0) = Ok true →
  truediv n fp = Raise ZeroDivisionError.
Proof.
  assert (∀ b, eq (SInt b) (SFloat 0) = Ok true → b = 0) as Hint.
  { intros b [= Hb]. apply bool_decide_eq_true in Hb.
    change (Some (b ?= 0) = Some Eq) in Hb.
    injection Hb as Hb. apply Z.compare_eq_iff in Hb. exact Hb. }
  intros Hn Hz. destruct n as [a|a], fp as [b|z]; simpl in *.
  - apply Hint in Hz as ->. reflexivity.
  - rewrite Hn. simpl. injection Hz as ->. reflexivity.
  - apply Hint in Hz as ->. reflexivity.
  - injection Hz as ->. reflexivity.
Qed.

(** X13.  A zero derivative is not guarded and does not give an infinite
    step: on int and float, with a bound of at least one pass, when the
    start value misses the tolerance, [-f(x0)] is a float (or an int that
    converts to one) and the derivative at [x0] equals zero, [newton]
    raises [ZeroDivisionError]. *)
Theorem X13_newton_zero_derivative (float_pow : float → float → res scalar)
    (f : callable scalar) (x0 atol y a n fp : scalar) (nf : float)
    (maxiter : Z) :
  1 ≤ maxiter →
  f (VScalar x0) = Ok (VScalar y) →
  num_abs (PyNumber := number float_pow) y = Ok a →
  num_lt (PyNumber := number float_pow) a atol = Ok false →
  num_neg (PyNumber := number float_pow) y = Ok n →
  as_float n = Ok nf →
  fprime (PN := number float_pow) f x0 = Ok fp →
  num_eq (PyNumber := number float_pow) fp (SFloat 0) = Ok true →
  newton (PN := number float_pow) f x0 atol maxiter = Raise ZeroDivisionError.
Proof.
  intros Hm Hf Ha Hlt Hn Hnf Hfp Hz. unfold newton.
  rewrite loop_pass by (simpl; lia).
  unfold body, wrapped. cbn [fst snd l_x0]. rewrite Hf.
  cbn [mbind res_bind]. rewrite Ha. cbn [mbind res_bind]. rewrite Hlt.
  cbn [mbind res_bind]. rewrite Hn. cbn [mbind res_bind].
  rewrite d_any. cbn [d_dispatch call_fprime]. rewrite Hfp.
  cbn [mbind res_bind].
  change (num_truediv (PyNumber := number float_pow) n fp)
    with (truediv n fp).
  rewrite (truediv_by_zero n fp nf Hnf Hz). reflexivity.
Qed.

Lemma X13_newton_zero_derivative_witness :
  newton (PN := python) f_square (SInt 0) (SFloat 0.5) 3 =
    Raise ZeroDivisionError.
Proof.
  apply (X13_newton_zero_derivative no_float_pow f_square (SInt 0)
           (SFloat 0.5) (SInt (-1)) (SInt 1) (SInt 1) (SFloat 0) 1 3);
    try reflexivity. lia.
Defined.

(** X14.  The bound is kept: in every [Result] that [newton] returns,
    [0 <= nit <= maxiter], [nfev] is [2 * nit] or [2 * nit + 2], and
    [2 <= nfev <= 2 * maxiter]: [f] is called at most [maxiter] times
    through the counter. *)
Theorem X14_newton_bounds {scalar} {PN : PyNumber scalar}
    (f : callable scalar) (x0 atol : scalar) (maxiter : Z)
    (r : Result scalar) :
  newton f x0 atol maxiter = Ok r →
  ∃ nit nfev,
    r !! "nit" = Some (FInt nit) ∧ r !! "nfev" = Some (FInt nfev) ∧
    0 ≤ nit ≤ maxiter ∧ (nfev = 2 * nit ∨ nfev = 2 * nit + 2) ∧
    2 ≤ nfev ≤ 2 * maxiter.
Proof.
  intros Hr. pose proof (newton_outcome f x0 atol maxiter) as Ho.
  rewrite Hr in Ho.
  destruct Ho as [(nit & x' & Hnit & ->)|(x' & Hm & ->)].
  - exists nit, (2 * (nit + 1)). repeat split; lia.
  - exists maxiter, (2 * maxiter). repeat split; lia.
Qed.

Lemma X14_newton_bounds_witness :
  newton (PN := python) f_square (SInt 3) (SFloat 0.5) 2 =
    Ok (make_Result "max iterations reached." false 2 4
          (SFloat 0x1.2222222222222p+0)) ∧
  ∃ nit nfev,
    make_Result "max iterations reached." false 2 4
      (SFloat 0x1.2222222222222p+0) !! "nit" = Some (FInt nit) ∧
    make_Result "max iterations reached." false 2 4
      (SFloat 0x1.2222222222222p+0) !! "nfev" = Some (FInt nfev) ∧
    0 ≤ nit ≤ 2 ∧ (nfev = 2 * nit ∨ nfev = 2 * nit + 2) ∧
    2 ≤ nfev ≤ 2 * 2.
Proof.
  split; [vm_compute; reflexivity|].
  apply (X14_newton_bounds (PN := python) f_square (SInt 3) (SFloat 0.5) 2).
  vm_compute. reflexivity.
Defined.

(** X15.  A [Result] that [newton] returns has the five keys [message],
    [success], [nit], [nfev] and [x] and no other: [Result.__getattr__],
    the method that attribute access calls for a name that the normal
    lookup does not find (so not for [keys], [items] and the other
    attributes of [dict]), returns for these five and raises [KeyError]
    (not [AttributeError]) for every other name. *)
Theorem X15_newton_Result_keys {scalar} {PN : PyNumber scalar}
    (f : callable scalar) (x0 atol : scalar) (maxiter : Z)
    (r : Result scalar) :
  newton f x0 atol maxiter = Ok r →
  ∀ key : string,
    (key ∈ ["message"; "success"; "nit"; "nfev"; "x"]%string →
       returns (Result_getattr r key)) ∧
    (key ∉ ["message"; "success"; "nit"; "nfev"; "x"]%string →
       Result_getattr r key = Raise KeyError).
Proof.
  intros Hr key.
  assert (∃ msg success nit nfev x, r = make_Result msg success nit nfev x)
    as (msg & success & nit & nfev & x & ->).
  { pose proof (newton_outcome f x0 atol maxiter) as Ho. rewrite Hr in Ho.
    destruct Ho as [(nit & x' & _ & ->)|(x' & _ & ->)]; eauto 10. }
  unfold Result_getattr, make_Result, returns. split.
  - rewrite !elem_of_cons, elem_of_nil.
    intros [->|[->|[->|[->|[->|[]]]]]]; eexists; reflexivity.
  - rewrite !not_elem_of_cons. intros (? & ? & ? & ? & ? & _).
    unfold Result. rewrite !lookup_insert_ne, lookup_empty by congruence.
    reflexivity.
Qed.

Lemma X15_newton_Result_keys_witness :
  newton (PN := python) f_linear (SInt 3) (SFloat 0.5) 200 =
    Ok (make_Result "converged." true 1 4 (SFloat 1)) ∧
  Result_getattr (make_Result "converged." true 1 4 (SFloat 1)) "fun" =
    Raise KeyError.
Proof.
  split; [vm_compute; reflexivity|].
  apply (X15_newton_Result_keys (PN := python) f_linear (SInt 3)
           (SFloat 0.5) 200).
  - vm_compute. reflexivity.
  - rewrite !not_elem_of_cons. repeat split; try discriminate.
    apply not_elem_of_nil.
Defined.

(** X16.  A [Result] that [newton] returns can be tested: its truth value
    is its field [success], the test raises nothing, and it is [True]
    exactly when the message is ["converged."]. *)
Theorem X16_newton_Result_truth {scalar} {PN : PyNumber scalar}
    (f : callable scalar) (x0 atol : scalar) (maxiter : Z)
    (r : Result scalar) :
  newton f x0 atol maxiter = Ok r →
  ∃ b : bool,
    truth r = Ok b ∧ r !! "success" = Some (FBool b) ∧
    (b = true ↔ r !! "message" = Some (FStr "converged.")).
Proof.
  intros Hr. pose proof (newton_outcome f x0 atol maxiter) as Ho.
  rewrite Hr in Ho.
  destruct Ho as [(nit & x' & _ & ->)|(x' & _ & ->)].
  - exists true. repeat split.
  - exists false. repeat split; discriminate.
Qed.

Lemma X16_newton_Result_truth_witness :
  newton (PN := python) f_linear (SInt 3) (SFloat 0.5) 200 =
    Ok (make_Result "converged." true 1 4 (SFloat 1)) ∧
  ∃ b : bool,
    truth (make_Result "converged." true 1 4 (SFloat 1)) = Ok b ∧
    make_Result "converged." true 1 4 (SFloat 1) !! "success" =
      Some (FBool b) ∧
    (b = true ↔
     make_Result "converged." true 1 4 (SFloat 1) !! "message" =
       Some (FStr "converged.")).
Proof.
  split; [vm_compute; reflexivity|].
  apply (X16_newton_Result_truth (PN := python) f_linear (SInt 3)
           (SFloat 0.5) 200).
  vm_compute. reflexivity.
Defined.

(** X17.  Testing a [Result] raises exactly when the key [success] holds
    something that is not a [bool] (the int 1, a string): what
    [__bool__] hands back is then refused with [TypeError]; no other
    exception is raised. *)
Theorem X17_Result_truth_raises {scalar} (r : Result scalar) :
  (truth r = Raise TypeError ↔
   ∃ v, r !! "success" = Some v ∧ ∀ b, v ≠ FBool b) ∧
  (∀ e, truth r = Raise e → e = TypeError).
Proof.
  unfold truth, Result_bool, Result in *.
  destruct (decide ("success" ∈ dom r)) as [Hin|Hnin].
  - apply elem_of_dom in Hin as [v Hv]. rewrite Hv. simpl.
    destruct v as [s|b|n|o]; (split; [split|]);
      try discriminate; try (intros; congruence);
      try (intros _; eexists; split; [reflexivity | discriminate]).
    intros (v & [= <-] & Hb). destruct (Hb b eq_refl).
  - apply not_elem_of_dom in Hnin. rewrite Hnin.
    split; [split|]; try discriminate. intros (v & [=] & _).
Qed.

Lemma Result_repr_make {scalar} (str : field scalar → string)
    (message : string) (success : bool) (nit nfev : Z) (x : scalar) :
  Result_repr str (make_Result message success nit nfev x) =
    String.concat (String (Ascii.ascii_of_nat 10) "")
      ["message: " +:+ str (FStr message);
       "nfev: " +:+ str (FInt nfev);
       "nit: " +:+ str (FInt nit);
       "success: " +:+ str (FBool success);
       "x: " +:+ str (FObj (VScalar x))]%string.
Proof.
  vm_compute. reflexivity.
Qed.

(** X18.  The text of a [Result] that [newton] returns, whatever [str]
    gives for the five values: the lines [message], [nfev], [nit],
    [success], [x] in this order (the sorted order of the lines), as
    ["key: value"], joined by newlines, as in the docstring of [newton]. *)
Theorem X18_newton_Result_repr {scalar} {PN : PyNumber scalar}
    (str : field scalar → string) (f : callable scalar) (x0 atol : scalar)
    (maxiter : Z) (r : Result scalar) :
  newton f x0 atol maxiter = Ok r →
  ∃ message success nit nfev x,
    r = make_Result message success nit nfev x ∧
    Result_repr str r =
      String.concat (String (Ascii.ascii_of_nat 10) "")
        ["message: " +:+ str (FStr message);
         "nfev: " +:+ str (FInt nfev);
         "nit: " +:+ str (FInt nit);
         "success: " +:+ str (FBool success);
         "x: " +:+ str (FObj (VScalar x))]%string.
Proof.
  intros Hr. pose proof (newton_outcome f x0 atol maxiter) as Ho.
  rewrite Hr in Ho.
  destruct Ho as [(nit & x' & _ & ->)|(x' & _ & ->)];
    repeat eexists; apply Result_repr_make.
Qed.

Lemma X18_newton_Result_repr_witness :
  newton (PN := python) f_linear (SInt 3) (SFloat 0.5) 200 =
    Ok (make_Result "converged." true 1 4 (SFloat 1)) ∧
  ∃ message success nit nfev x,
    make_Result "converged." true 1 4 (SFloat 1) =
      make_Result message success nit nfev x ∧
    Result_repr (λ _, "..."%string)
      (make_Result "converged." true 1 4 (SFloat 1)) =
      String.concat (String (Ascii.ascii_of_nat 10) "")
        ["message: " +:+ "..."; "nfev: " +:+ "..."; "nit: " +:+ "...";
         "success: " +:+ "..."; "x: " +:+ "..."]%string.
Proof.
  split; [vm_compute; reflexivity|].
  apply (X18_newton_Result_repr (PN := python) (λ _, "..."%string) f_linear
           (SInt 3) (SFloat 0.5) 200).
  vm_compute. reflexivity.
Defined.

(** The sorted lines do not depend on the order in which a dictionary
    yields its items. *)
Lemma sorted_lines_order_free (l l' : list string) :
  l ≡ₚ l' → merge_sort String.le l = merge_sort String.le l'.
Proof.
  intros Hp. apply (Sorted_unique String.le).
  - apply (Sorted_merge_sort String.le).
  - apply (Sorted_merge_sort String.le).
  - rewrite !(merge_sort_Permutation String.le). exact Hp.
Qed.

(** X19.  Negation on integers: [-Num(x, dx)] with int fields has the int
    value [x * -1], but its derivative part [dx * -1 + x * 0.] is a float,
    and computing it converts [x] and [-dx] to floats: the negation raises
    [OverflowError] when one of them is too large, and nothing else. *)
Theorem X19_neg_on_int (float_pow : float → float → res scalar) (x dx : Z) :
  Num_neg (PN := number float_pow) (VNum (SInt x) (SInt dx)) =
    (fx ← float_of_int x;
     fd ← float_of_int (dx * -1);
     Ok (VNum (SInt (x * -1)) (SFloat (fd + fx * 0)))).
Proof.
  unfold Num_neg, Num_rmul, Num_mul. rewrite operands_Num_scalar.
  cbn -[float_of_int PrimFloat.mul PrimFloat.add Z.mul].
  unfold float_op.
  cbn -[float_of_int PrimFloat.mul PrimFloat.add Z.mul].
  destruct (float_of_int x) as [fx|]; [|reflexivity].
  cbn -[float_of_int PrimFloat.mul PrimFloat.add Z.mul].
  destruct (float_of_int (dx * -1)) as [fd|]; reflexivity.
Qed.

Section Tolerance.
Context {scalar : Type} {PN : PyNumber scalar}.

Lemma body_looser (f : callable scalar) (fp : dres scalar)
    (atol atol' : scalar) (cell : Z) (x : scalar) :
  looser atol atol' →
  match snd (body f fp atol cell x) with
  | Ok (Break n) => snd (body f fp atol' cell x) = Ok (Break n)
  | Ok (Next n x') =>
      snd (body f fp atol' cell x) = Ok (Next n x') ∨
      snd (body f fp atol' cell x) = Ok (Break n)
  | Raise _ => True
  end.
Proof.
  intros Hl. unfold body, wrapped. simpl.
  destruct (f (VScalar x)) as [[y| |]|]; simpl; try exact I.
  destruct (num_abs y) as [a|]; simpl; [|exact I].
  specialize (Hl a).
  destruct (num_lt a atol) as [[]|]; simpl; [| |exact I].
  - rewrite Hl. reflexivity.
  - destruct Hl as [[] ->]; simpl.
    + destruct (num_neg y); simpl; [|exact I].
      destruct (call_fprime fp x); simpl; [|exact I].
      destruct (num_truediv _ _); simpl; [|exact I].
      destruct (num_add _ _); simpl; [|exact I]. right. reflexivity.
    + destruct (num_neg y); simpl; [|exact I].
      destruct (call_fprime fp x); simpl; [|exact I].
      destruct (num_truediv _ _); simpl; [|exact I].
      destruct (num_add _ _); simpl; [|exact I]. left. reflexivity.
Qed.

Lemma loop_count_le (f : callable scalar) (fp : dres scalar)
    (atol : scalar) (maxiter cell : Z) (l : locals scalar) :
  match loop f fp atol maxiter cell l with
  | Ok l' => l_count l ≤ l_count l' ∧ is_Some (l_msg l')
  | Raise _ => True
  end.
Proof.
  remember (Z.to_nat (maxiter - l_count l)) as k eqn:Hk.
  revert cell l Hk. induction k as [k IH] using lt_wf_ind.
  intros cell l ->.
  destruct (Z_lt_dec (l_count l) maxiter) as [Hlt|Hge].
  - rewrite loop_pass by assumption.
    destruct (snd (body f fp atol cell (l_x0 l))) as [[n|n x']|];
      simpl; [split; [lia | eauto] | | exact I].
    specialize (IH (Z.to_nat (maxiter - (l_count l + 1)))
      ltac:(lia) (cell + 1)
      {| l_msg := l_msg l; l_success := l_success l;
         l_count := l_count l + 1; l_nfev := Some n; l_x0 := x' |}
      eq_refl).
    destruct (loop _ _ _ _ _ _); [|exact I]. simpl in IH.
    destruct IH; split; [lia | assumption].
  - rewrite loop_no_pass by lia. simpl. split; [lia | eauto].
Qed.

Lemma loop_looser (f : callable scalar) (fp : dres scalar)
    (atol atol' : scalar) (maxiter cell : Z) (l : locals scalar) :
  looser atol atol' →
  match loop f fp atol maxiter cell l with
  | Ok l1 =>
      ∃ l2, loop f fp atol' maxiter cell l = Ok l2 ∧
        l_count l2 ≤ l_count l1 ∧
        (l_success l1 = true → l_success l2 = true) ∧
        (is_Some (l_nfev l1) → is_Some (l_nfev l2))
  | Raise _ => True
  end.
Proof.
  intros Hl.
  remember (Z.to_nat (maxiter - l_count l)) as k eqn:Hk.
  revert cell l Hk. induction k as [k IH] using lt_wf_ind.
  intros cell l ->.
  destruct (Z_lt_dec (l_count l) maxiter) as [Hlt|Hge].
  - rewrite !loop_pass by assumption.
    pose proof (body_looser f fp atol atol' cell (l_x0 l) Hl) as Hb.
    destruct (snd (body f fp atol cell (l_x0 l))) as [[n|n x']|];
      [| |exact I].
    + rewrite Hb. eexists. split; [reflexivity|]. simpl.
      repeat split; eauto. lia.
    + destruct Hb as [-> | ->].
      * apply (IH (Z.to_nat (maxiter - (l_count l + 1)))); simpl;
          [lia | reflexivity].
      * pose proof (loop_count_le f fp atol maxiter (cell + 1)
          {| l_msg := l_msg l; l_success := l_success l;
             l_count := l_count l + 1; l_nfev := Some n; l_x0 := x' |})
          as Hc.
        destruct (loop f fp atol maxiter (cell + 1) _) as [l1|];
          [|exact I].
        eexists. split; [reflexivity|]. simpl in *.
        repeat split; eauto. lia.
  - rewrite !loop_no_pass by lia. eexists. split; [reflexivity|].
    simpl. repeat split; eauto. lia.
Qed.

End Tolerance.

Lemma loop_longer {scalar} {PN : PyNumber scalar} (f : callable scalar)
    (fp : dres scalar) (atol : scalar) (maxiter maxiter' cell : Z)
    (l l1 : locals scalar) :
  maxiter ≤ maxiter' → l_success l = false →
  loop f fp atol maxiter cell l = Ok l1 → l_success l1 = true →
  loop f fp atol maxiter' cell l = Ok l1.
Proof.
  intros Hm.
  remember (Z.to_nat (maxiter - l_count l)) as k eqn:Hk.
  revert cell l Hk. induction k as [k IH] using lt_wf_ind.
  intros cell l -> Hf.
  destruct (Z_lt_dec (l_count l) maxiter) as [Hlt|Hge].
  - rewrite !loop_pass by lia.
    destruct (snd (body f fp atol cell (l_x0 l))) as [[n|n x']|];
      [tauto | | tauto].
    apply (IH (Z.to_nat (maxiter - (l_count l + 1)))); simpl;
      [lia | reflexivity | assumption].
  - rewrite loop_no_pass by lia. intros [= <-]. simpl. congruence.
Qed.

Lemma looser_int (a b : Z) :
  a ≤ b → looser (PN := PyIntFloat.python) (PyIntFloat.SInt a)
             (PyIntFloat.SInt b).
Proof.
  intros Hab [z|f]; simpl; unfold PyIntFloat.lt.
  - destruct (Z.ltb_spec z a); [|eexists; reflexivity].
    f_equal. apply Z.ltb_lt. lia.
  - destruct (bool_decide (PyIntFloat.compare_int_float a f = Some Gt))
      eqn:Hd; [|eexists; reflexivity].
    apply bool_decide_eq_true in Hd. f_equal. apply bool_decide_eq_true.
    revert Hd. unfold PyIntFloat.compare_int_float.
    destruct (Prim2SF f) as [s|s| |s m e]; try tauto.
    + intros [= Hc]. f_equal. apply Z.compare_gt_iff in Hc.
      apply Z.compare_gt_iff. lia.
    + destruct (0 <=? e); intros [= Hc]; f_equal;
        apply Z.compare_gt_iff in Hc; apply Z.compare_gt_iff; [lia|].
      assert (0 ≤ 2 ^ (- e)) by (apply Z.pow_nonneg; lia).
      eapply Z.lt_le_trans; [exact Hc|].
      apply Z.mul_le_mono_nonneg_r; assumption.
Qed.

(** X20.  A looser tolerance never costs passes: when every test
    [abs(f_x0) < atol] that holds also holds for [atol'] (and the test
    against [atol'] does not raise), and [newton] returns with [atol], it
    returns with [atol'] too, with [nit] no larger, and with [success] if
    the run with [atol] had it. *)
Theorem X20_newton_looser {scalar} {PN : PyNumber scalar}
    (f : callable scalar) (x0 atol atol' : scalar) (maxiter : Z)
    (r : Result scalar) :
  looser atol atol' →
  newton f x0 atol maxiter = Ok r →
  ∃ r' nit nit',
    newton f x0 atol' maxiter = Ok r' ∧
    r !! "nit" = Some (FInt nit) ∧ r' !! "nit" = Some (FInt nit') ∧
    nit' ≤ nit ∧
    (r !! "success" = Some (FBool true) →
     r' !! "success" = Some (FBool true)).
Proof.
  intros Hl Hr. unfold newton in *.
  pose proof (loop_looser f (d (Fn f) 1) atol atol' maxiter 0
                (Locals None false 0 None x0) Hl) as Ho.
  pose proof (loop_count_le f (d (Fn f) 1) atol' maxiter 0
                (Locals None false 0 None x0)) as Hc.
  destruct (loop f (d (Fn f) 1) atol maxiter 0 _)
    as [[msg success count nfev x]|]; [|discriminate Hr].
  destruct Ho as ([msg' success' count' nfev' x'] & Ho & Hle & Hs & Hn).
  rewrite Ho in Hc |- *.
  simpl in *. destruct Hc as [_ [m' ->]].
  destruct msg as [m|]; [|discriminate Hr].
  destruct nfev as [n|]; [|discriminate Hr].
  destruct Hn as [n' ->]; [eauto|]. simpl in *.
  injection Hr as <-.
  eexists _, count, count'. split; [reflexivity|].
  repeat split; try assumption.
  intros Hsuc.
  change (Some (FBool (scalar := scalar) success) = Some (FBool true))
    in Hsuc.
  injection Hsuc as ->. rewrite Hs; reflexivity.
Qed.

Lemma X20_newton_looser_witness :
  newton (PN := python) f_square (SInt 3) (SInt 1) 5 =
    Ok (make_Result "converged." true 2 6 (SFloat 0x1.2222222222222p+0)) ∧
  ∃ r' nit nit',
    newton (PN := python) f_square (SInt 3) (SInt 2) 5 = Ok r' ∧
    make_Result "converged." true 2 6 (SFloat 0x1.2222222222222p+0)
      !! "nit" = Some (FInt nit) ∧
    r' !! "nit" = Some (FInt nit') ∧ nit' ≤ nit ∧
    (make_Result "converged." true 2 6 (SFloat 0x1.2222222222222p+0)
       !! "success" = Some (FBool true) →
     r' !! "success" = Some (FBool true)).
Proof.
  split; [vm_compute; reflexivity|].
  apply (X20_newton_looser (PN := python) f_square (SInt 3) (SInt 1)
           (SInt 2) 5).
  - apply looser_int. lia.
  - vm_compute. reflexivity.
Defined.

(** X21.  A larger bound keeps a converged result: when [newton] returns a
    [Result] whose [success] is [True] for [maxiter], it returns the same
    [Result] for every [maxiter' >= maxiter]. *)
Theorem X21_newton_longer {scalar} {PN : PyNumber scalar}
    (f : callable scalar) (x0 atol : scalar) (maxiter maxiter' : Z)
    (r : Result scalar) :
  maxiter ≤ maxiter' →
  newton f x0 atol maxiter = Ok r →
  r !! "success" = Some (FBool true) →
  newton f x0 atol maxiter' = Ok r.
Proof.
  intros Hm Hr Hs. unfold newton in *.
  destruct (loop f (d (Fn f) 1) atol maxiter 0 _)
    as [[msg success count nfev x]|] eqn:Hl; [|discriminate Hr].
  simpl in Hr.
  destruct msg as [m|]; [|discriminate Hr].
  destruct nfev as [n|]; [|discriminate Hr].
  simpl in Hr. injection Hr as <-.
  change (Some (FBool (scalar := scalar) success) = Some (FBool true))
    in Hs.
  injection Hs as ->.
  erewrite (loop_longer f (d (Fn f) 1) atol maxiter maxiter' 0);
    [| exact Hm | | exact Hl | ]; reflexivity.
Qed.

Lemma X21_newton_longer_witness :
  newton (PN := python) f_linear (SInt 3) (SFloat 0.5) 2 =
    Ok (make_Result "converged." true 1 4 (SFloat 1)) ∧
  newton (PN := python) f_linear (SInt 3) (SFloat 0.5) 200 =
    Ok (make_Result "converged." true 1 4 (SFloat 1)).
Proof.
  split; [vm_compute; reflexivity|].
  apply (X21_newton_longer (PN := python) f_linear (SInt 3) (SFloat 0.5)
           2 200).
  - lia.
  - vm_compute. reflexivity.
  - reflexivity.
Defined.
